(** * kanjo: configuration model, error taxonomy and run tracker

    A shallow embedding of the Go packages [errors], [utils] and [entities]
    of github.com/SHIMA0111/kanjo (internal/domain), and the properties of
    them that the specification states.

    Conventions of the embedding:
    - a Go [string] is a sequence of bytes: Rocq's [string];
    - a Go [error] value is [option error], [None] being [nil];
    - a method with a pointer receiver returns the receiver's new value
      (next to its result when it has one);
    - [int] is [Z] with the 64-bit wrap-around written out, [uint64] is [Z]
      reduced modulo 2^64, [float64] is IEEE 754 binary64 as [spec_float];
    - what the Go runtime supplies ([time.Now], [runtime.ReadMemStats],
      [crypto/rand.Read]) is an explicit argument. *)

From Stdlib Require Import String Ascii List ZArith Lia Bool.
From Stdlib Require Import DecimalString.
From Stdlib Require Import Floats.SpecFloat.
Import ListNotations.

Local Open Scope list_scope.
Local Open Scope string_scope.
Local Set Warnings "-register-all".

(** ** Package fmt: the verbs the repository uses *)

Module fmt.

(** [%d] of a non-negative [int] (a slice index). *)
Definition d (i : nat) : string := NilZero.string_of_uint (Nat.to_uint i).

(** [%v] of a [[]string]: the elements separated by spaces, in brackets. *)
Definition v (l : list string) : string := "[" ++ String.concat " " l ++ "]".

End fmt.

(** ** Package slices *)

Module slices.

(** [slices.Contains] on a [[]string]. *)
Fixpoint Contains (s : list string) (x : string) : bool :=
  match s with
  | [] => false
  | y :: s' => if String.eqb y x then true else Contains s' x
  end.

End slices.

(** ** Package errors (internal/domain/errors)

    The three error kinds carry an optional cause, itself an error. Each
    struct is declared over the type of its cause; [error] below closes the
    recursion. *)

Module ConfigurationError.

Record t (E : Type) : Type := Build
  { Field : string; Message : string; Cause : option E }.
Arguments Build {E} _ _ _.
Arguments Field {E} _.
Arguments Message {E} _.
Arguments Cause {E} _.

Definition Error {E} (e : t E) : string :=
  if negb (String.eqb (Field e) "")
  then "configuration error in field '" ++ Field e ++ "': " ++ Message e
  else "configuration error: " ++ Message e.

Definition Unwrap {E} (e : t E) : option E := Cause e.

Definition NewConfigurationError {E} (field message : string)
    (cause : option E) : t E :=
  Build field message cause.

End ConfigurationError.

Module AuthenticationError.

Record t (E : Type) : Type := Build
  { Message : string;
    Cause : option E;
    RetryAttempt : Z;
    MaxRetries : Z }.
Arguments Build {E} _ _ _ _.
Arguments Message {E} _.
Arguments Cause {E} _.
Arguments RetryAttempt {E} _.
Arguments MaxRetries {E} _.

(** Go's [int] on a 64-bit platform: [x] reduced to [-2^63, 2^63). *)
Definition wrap_int (x : Z) : Z :=
  ((x + 2 ^ 63) mod 2 ^ 64 - 2 ^ 63)%Z.

Definition Error {E} (e : t E) : string :=
  "authentication error: " ++ Message e.

Definition Unwrap {E} (e : t E) : option E := Cause e.

Definition IsRetryable {E} (e : t E) : bool :=
  (RetryAttempt e <? MaxRetries e)%Z.

Definition IncrementRetryAttempt {E} (e : t E) : t E :=
  Build (Message e) (Cause e) (wrap_int (RetryAttempt e + 1)%Z)
    (MaxRetries e).

Definition NewAuthenticationError {E} (message : string) (cause : option E)
  : t E :=
  Build message cause 0%Z 3%Z.

Definition NewAuthenticationErrorWithMaxRetries {E} (message : string)
    (cause : option E) (maxRetries : Z) : t E :=
  Build message cause 0%Z maxRetries.

End AuthenticationError.

Module DataProcessError.

Record t (E : Type) : Type := Build
  { Step : string;
    Message : string;
    Cause : option E;
    Recoverable : bool;
    RecoveryAction : string }.
Arguments Build {E} _ _ _ _ _.
Arguments Step {E} _.
Arguments Message {E} _.
Arguments Cause {E} _.
Arguments Recoverable {E} _.
Arguments RecoveryAction {E} _.

Definition Error {E} (e : t E) : string :=
  if negb (String.eqb (Step e) "")
  then "data process error in step '" ++ Step e ++ "': " ++ Message e
  else "data process error: " ++ Message e.

Definition Unwrap {E} (e : t E) : option E := Cause e.

Definition IsRecoverable {E} (e : t E) : bool := Recoverable e.

Definition GetRecoveryAction {E} (e : t E) : string := RecoveryAction e.

Definition NewDataProcessError {E} (step message : string)
    (cause : option E) : t E :=
  Build step message cause false "".

Definition NewRecoverableDataProcessError {E} (step message : string)
    (cause : option E) (recoveryAction : string) : t E :=
  Build step message cause true recoveryAction.

End DataProcessError.

Module errors.

(** The dynamic types an [error] of this repository can have: what
    [fmt.Errorf] returns without a [%w] verb, or an error of another
    package that has no [Unwrap] ([errorString]: only its text matters);
    what [fmt.Errorf] returns with a [%w] verb ([wrapError], whose
    [Unwrap] is the wrapped error); and pointers to the three structs of
    the package. *)
Inductive error : Type :=
| errorString (s : string)
| wrapError (msg : string) (err : error)
| configurationError (e : ConfigurationError.t error)
| authenticationError (e : AuthenticationError.t error)
| dataProcessError (e : DataProcessError.t error).

Definition Error (err : error) : string :=
  match err with
  | errorString s => s
  | wrapError msg _ => msg
  | configurationError e => ConfigurationError.Error e
  | authenticationError e => AuthenticationError.Error e
  | dataProcessError e => DataProcessError.Error e
  end.

Definition Unwrap (err : error) : option error :=
  match err with
  | errorString _ => None
  | wrapError _ e => Some e
  | configurationError e => ConfigurationError.Unwrap e
  | authenticationError e => AuthenticationError.Unwrap e
  | dataProcessError e => DataProcessError.Unwrap e
  end.

(** [fmt.Errorf] with a format that holds no [%w]: [s] is the formatted
    text. *)
Definition Errorf (s : string) : error := errorString s.

(** [fmt.Errorf(prefix + "%w", err)]: the text is the prefix followed by
    the text of [err], and [err] is kept for [Unwrap]. *)
Definition Errorf_w (prefix : string) (err : error) : error :=
  wrapError (prefix ++ Error err) err.

(** [errors.As]: the first error of the chain [err], [Unwrap(err)], ...
    that has the target's type, [target] being the type test. *)
Fixpoint As {T : Type} (target : error -> option T) (err : error)
    {struct err} : option T :=
  match target err with
  | Some x => Some x
  | None =>
      match err with
      | errorString _ => None
      | wrapError _ e => As target e
      | configurationError c =>
          match ConfigurationError.Cause c with
          | Some e => As target e
          | None => None
          end
      | authenticationError a =>
          match AuthenticationError.Cause a with
          | Some e => As target e
          | None => None
          end
      | dataProcessError p =>
          match DataProcessError.Cause p with
          | Some e => As target e
          | None => None
          end
      end
  end.

Definition isConfigurationError (err : error)
  : option (ConfigurationError.t error) :=
  match err with configurationError e => Some e | _ => None end.

Definition isAuthenticationError (err : error)
  : option (AuthenticationError.t error) :=
  match err with authenticationError e => Some e | _ => None end.

Definition isDataProcessError (err : error)
  : option (DataProcessError.t error) :=
  match err with dataProcessError e => Some e | _ => None end.

Definition ok {T} (o : option T) : bool :=
  match o with Some _ => true | None => false end.

(** The three predicates take a Go [error], which may be [nil];
    [errors.As] is false on [nil]. *)
Definition IsConfigurationError (err : option error) : bool :=
  match err with
  | Some e => ok (As isConfigurationError e)
  | None => false
  end.

Definition IsAuthenticationError (err : option error) : bool :=
  match err with
  | Some e => ok (As isAuthenticationError e)
  | None => false
  end.

Definition IsDataProcessError (err : option error) : bool :=
  match err with
  | Some e => ok (As isDataProcessError e)
  | None => false
  end.

End errors.

Import errors.

(** ** Package unicode/utf8 *)

Module utf8.

(** The encoding of [RuneError] (U+FFFD): the bytes EF BF BD. *)
Definition RuneError : string :=
  String "239" (String "191" (String "189" EmptyString)).

(** The tables [first] and [acceptRanges] for a leading byte from 0x80
    up: the length of the sequence and the range its second byte must lie
    in, or [None] where no sequence starts. *)
Definition first (b : N) : option (nat * N * N) :=
  if (b <? 194)%N then None
  else if (b <? 224)%N then Some (2, 128%N, 191%N)
  else if (b =? 224)%N then Some (3, 160%N, 191%N)
  else if (b =? 237)%N then Some (3, 128%N, 159%N)
  else if (b <? 240)%N then Some (3, 128%N, 191%N)
  else if (b =? 240)%N then Some (4, 144%N, 191%N)
  else if (b <? 244)%N then Some (4, 128%N, 191%N)
  else if (b =? 244)%N then Some (4, 128%N, 143%N)
  else None.

Definition between (lo hi : N) (c : ascii) : bool :=
  (lo <=? N_of_ascii c)%N && (N_of_ascii c <=? hi)%N.

(** A continuation byte: between [locb] and [hicb]. *)
Definition continuation (c : ascii) : bool := between 128 191 c.

(** [s] with every invalid byte replaced by U+FFFD, which is how
    [encoding/json] writes a string: at each position
    [DecodeRuneInString] reads one sequence, and where it returns
    [(RuneError, 1)] that one byte becomes U+FFFD. *)
Fixpoint ToValidUTF8 (s : string) : string :=
  match s with
  | EmptyString => EmptyString
  | String b0 r0 =>
      if (N_of_ascii b0 <? 128)%N then String b0 (ToValidUTF8 r0)
      else
        let invalid := RuneError ++ ToValidUTF8 r0 in
        match first (N_of_ascii b0) with
        | None => invalid
        | Some (sz, lo, hi) =>
            match r0 with
            | EmptyString => invalid
            | String b1 r1 =>
                if negb (between lo hi b1) then invalid
                else if Nat.leb sz 2 then
                  String b0 (String b1 (ToValidUTF8 r1))
                else
                  match r1 with
                  | EmptyString => invalid
                  | String b2 r2 =>
                      if negb (continuation b2) then invalid
                      else if Nat.leb sz 3 then
                        String b0 (String b1 (String b2 (ToValidUTF8 r2)))
                      else
                        match r2 with
                        | EmptyString => invalid
                        | String b3 r3 =>
                            if negb (continuation b3) then invalid
                            else
                              String b0
                                (String b1
                                   (String b2
                                      (String b3 (ToValidUTF8 r3))))
                        end
                  end
            end
        end
  end.

(** [utf8.ValidString]: no byte of [s] is replaced. *)
Definition ValidString (s : string) : bool :=
  String.eqb (ToValidUTF8 s) s.

End utf8.

(** ** Package encoding/json

    A JSON text is represented by the value it denotes: [Marshal] is
    modelled up to the value it writes and [Unmarshal] from the value it
    reads. The rendering of a value as text (indentation, escapes) and the
    scanner that reads it back are not modelled. *)

Module json.

Inductive Value : Type :=
| Null
| Bool (b : bool)
| Number (literal : string)
| Str (s : string)
| Array (elements : list Value)
| Object (members : list (string * Value)).

(** The word [UnmarshalTypeError] uses for a value. *)
Definition kind (v : Value) : string :=
  match v with
  | Null => "null"
  | Bool _ => "bool"
  | Number _ => "number"
  | Str _ => "string"
  | Array _ => "array"
  | Object _ => "object"
  end.

(** An [*UnmarshalTypeError]: an error with no [Unwrap]. Of its text the
    value's kind and the Go type are kept; the struct and field names
    that newer releases add are not. *)
Definition UnmarshalTypeError (v : Value) (type : string) : error :=
  errorString ("json: cannot unmarshal " ++ kind v
               ++ " into Go value of type " ++ type).

(** The decoder goes on after a type error and reports the first one. *)
Definition saveError (saved new : option error) : option error :=
  match saved with Some _ => saved | None => new end.

(** *** Encoding *)

(** A string is written coerced to valid UTF-8. *)
Definition marshalString (s : string) : Value := Str (utf8.ToValidUTF8 s).

(** A slice without [omitempty]: a nil slice is written [null]. *)
Definition marshalSlice {A} (elem : A -> Value) (l : list A) : Value :=
  match l with
  | [] => Null
  | _ => Array (map elem l)
  end.

(** A member [key] tagged [omitempty]: left out when [empty]. *)
Definition omitempty (empty : bool) (key : string) (v : Value)
  : list (string * Value) :=
  if empty then [] else [(key, v)].

Definition isEmpty {A} (l : list A) : bool :=
  match l with [] => true | _ => false end.

(** *** Decoding *)

(** Into a [string]: [null] leaves it as it is. *)
Definition unmarshalString (v : Value) (old : string)
  : string * option error :=
  match v with
  | Null => (old, None)
  | Str s => (s, None)
  | _ => (old, Some (UnmarshalTypeError v "string"))
  end.

(** The elements of an array into a slice: element [i] is decoded into
    the slice's element [i] where it has one, and into a zero value
    otherwise (spare capacity of the old slice is taken to hold zero
    values). *)
Fixpoint unmarshalElements {A} (zero : A)
    (elem : Value -> A -> A * option error) (vs : list Value)
    (old : list A) : list A * option error :=
  match vs with
  | [] => ([], None)
  | v :: vs' =>
      let (x, e1) := elem v (hd zero old) in
      let (xs, e2) := unmarshalElements zero elem vs' (tl old) in
      (x :: xs, saveError e1 e2)
  end.

(** Into a slice of type [type]: [null] makes it nil. *)
Definition unmarshalSlice {A} (type : string) (zero : A)
    (elem : Value -> A -> A * option error) (v : Value) (old : list A)
  : list A * option error :=
  match v with
  | Null => ([], None)
  | Array vs => unmarshalElements zero elem vs old
  | _ => (old, Some (UnmarshalTypeError v type))
  end.

(** The members of an object into a struct, in the order of the text;
    [field] stores one member (and ignores a key of no field). *)
Fixpoint unmarshalMembers {T}
    (field : string -> Value -> T -> T * option error)
    (members : list (string * Value)) (old : T) : T * option error :=
  match members with
  | [] => (old, None)
  | (key, v) :: members' =>
      let (x, e1) := field key v old in
      let (y, e2) := unmarshalMembers field members' x in
      (y, saveError e1 e2)
  end.

(** Into a struct of type [type]: [null] leaves it as it is. *)
Definition unmarshalStruct {T} (type : string)
    (field : string -> Value -> T -> T * option error) (v : Value)
    (old : T) : T * option error :=
  match v with
  | Null => (old, None)
  | Object members => unmarshalMembers field members old
  | _ => (old, Some (UnmarshalTypeError v type))
  end.

(** [foldName]: ASCII letters in upper case, and the two runes outside
    ASCII that fold to an ASCII letter, U+017F (C5 BF) to S and U+212A
    (E2 84 AA) to K. Names of fields are ASCII, so no other rune
    matters. *)
Definition upper (c : ascii) : ascii :=
  if utf8.between 97 122 c then ascii_of_N (N_of_ascii c - 32) else c.

Fixpoint foldName (s : string) : string :=
  match s with
  | EmptyString => EmptyString
  | String c r =>
      match N_of_ascii c, r with
      | 197%N, String c1 r1 =>
          if (N_of_ascii c1 =? 191)%N then String "S" (foldName r1)
          else String c (foldName r)
      | 226%N, String c1 (String c2 r2) =>
          if ((N_of_ascii c1 =? 132) && (N_of_ascii c2 =? 170))%N
          then String "K" (foldName r2)
          else String c (foldName r)
      | _, _ => String (upper c) (foldName r)
      end
  end.

Fixpoint index {A} (p : A -> bool) (l : list A) (i : nat) : option nat :=
  match l with
  | [] => None
  | x :: l' => if p x then Some i else index p l' (S i)
  end.

(** The field a key names, by its position among the struct's JSON
    names: the one with exactly that name, or else the first whose name
    is the key up to [foldName]. *)
Definition lookupField (names : list string) (key : string)
  : option nat :=
  match index (String.eqb key) names 0 with
  | Some i => Some i
  | None =>
      index (fun n => String.eqb (foldName n) (foldName key)) names 0
  end.

End json.

(** ** Package utils *)

Module hex.

(** The table of [encoding/hex]: "0123456789abcdef". *)
Definition hextable (n : N) : ascii :=
  match n with
  | 0%N => "0" | 1%N => "1" | 2%N => "2" | 3%N => "3"
  | 4%N => "4" | 5%N => "5" | 6%N => "6" | 7%N => "7"
  | 8%N => "8" | 9%N => "9" | 10%N => "a" | 11%N => "b"
  | 12%N => "c" | 13%N => "d" | 14%N => "e" | _ => "f"
  end%char.

(** [hex.EncodeToString]: two digits per byte, the high half first. *)
Fixpoint EncodeToString (src : list ascii) : string :=
  match src with
  | [] => EmptyString
  | b :: src' =>
      String (hextable (N.shiftr (N_of_ascii b) 4))
        (String (hextable (N.land (N_of_ascii b) 15))
           (EncodeToString src'))
  end.

End hex.

Module utils.

Section RandomString.

(** What [crypto/rand.Read] writes into a buffer: the byte at each
    index. [Read] fills the whole buffer and never fails. *)
Variable rand_Read : nat -> ascii.

Definition RandomString (length : nat) : string :=
  let resultBytes := map rand_Read (seq 0 length) in
  hex.EncodeToString resultBytes.

End RandomString.

End utils.

(** ** Package entities: the configuration model

    A slice field is the list of its elements: [Validate] only ranges over
    these slices and takes their length, so a nil slice and an empty one are
    the same value here. *)

(** [for i, x := range xs { if err := x.Validate(); err != nil { return
    fmt.Errorf(label + "[%d]: %w", i, err) } }], started at index [i].
    The loop variable [x] is a copy of the element and [Validate] has a
    pointer receiver, so what [Validate] writes goes to the copy: the loop
    keeps only the error. [None] when the loop runs to its end. *)
Fixpoint rangeValidate {A : Type} (label : string)
    (Validate : A -> A * option error) (i : nat) (xs : list A)
    : option error :=
  match xs with
  | [] => None
  | x :: xs' =>
      match snd (Validate x) with
      | Some err => Some (Errorf_w (label ++ "[" ++ fmt.d i ++ "]: ") err)
      | None => rangeValidate label Validate (S i) xs'
      end
  end.

Module FilterConfig.

Record t : Type := Build
  { Column : string;
    Value : string;
    Operator : string;
    LogicalOperator : string }.

Definition validateOperators : list string :=
  ["eq"; "neq"; "gt"; "gte"; "lt"; "lte"].

Definition validateLogicalOperators : list string := ["and"; "or"].

Definition Validate (fc : t) : t * option error :=
  if String.eqb (Column fc) "" then
    (fc, Some (Errorf "column is required"))
  else if String.eqb (Value fc) "" then
    (fc, Some (Errorf "value is required"))
  else if negb (slices.Contains validateOperators (Operator fc)) then
    (fc, Some (Errorf ("invalid operator '" ++ Operator fc
                       ++ "', operator must be one of "
                       ++ fmt.v validateOperators)))
  else if negb (slices.Contains validateLogicalOperators
                  (LogicalOperator fc)) then
    (fc, Some (Errorf ("invalid logical operator '" ++ LogicalOperator fc
                       ++ "', operator must be one of "
                       ++ fmt.v validateLogicalOperators)))
  else (fc, None).

(** *** The struct in JSON, from its field tags *)

Definition zero : t := Build "" "" "" "".

Definition set_Column (s : string) (fc : t) : t :=
  Build s (Value fc) (Operator fc) (LogicalOperator fc).
Definition set_Value (s : string) (fc : t) : t :=
  Build (Column fc) s (Operator fc) (LogicalOperator fc).
Definition set_Operator (s : string) (fc : t) : t :=
  Build (Column fc) (Value fc) s (LogicalOperator fc).
Definition set_LogicalOperator (s : string) (fc : t) : t :=
  Build (Column fc) (Value fc) (Operator fc) s.

Definition names : list string :=
  ["column"; "value"; "operator"; "logicalOperator"].

Definition marshal (fc : t) : json.Value :=
  json.Object
    [("column", json.marshalString (Column fc));
     ("value", json.marshalString (Value fc));
     ("operator", json.marshalString (Operator fc));
     ("logicalOperator", json.marshalString (LogicalOperator fc))].

Definition unmarshalField (key : string) (v : json.Value) (fc : t)
  : t * option error :=
  match json.lookupField names key with
  | Some 0 =>
      let (s, e) := json.unmarshalString v (Column fc) in
      (set_Column s fc, e)
  | Some 1 =>
      let (s, e) := json.unmarshalString v (Value fc) in
      (set_Value s fc, e)
  | Some 2 =>
      let (s, e) := json.unmarshalString v (Operator fc) in
      (set_Operator s fc, e)
  | Some 3 =>
      let (s, e) := json.unmarshalString v (LogicalOperator fc) in
      (set_LogicalOperator s fc, e)
  | _ => (fc, None)
  end.

Definition unmarshal : json.Value -> t -> t * option error :=
  json.unmarshalStruct "entities.FilterConfig" unmarshalField.

End FilterConfig.

Module MergeConfig.

Record t : Type := Build
  { FirstColumn : string;
    SecondColumn : string;
    Strategy : string;
    DefaultValues : list string;
    ResultColumnName : string }.

Definition set_Strategy (s : string) (m : t) : t :=
  Build (FirstColumn m) (SecondColumn m) s (DefaultValues m)
    (ResultColumnName m).

Definition set_ResultColumnName (s : string) (m : t) : t :=
  Build (FirstColumn m) (SecondColumn m) (Strategy m) (DefaultValues m) s.

Definition validateStrategies : list string :=
  ["concat"; "sum"; "first"; "second"].

(** The same text in both revisions of the package (config.go and the
    later one that adds filters). *)
Definition Validate (m : t) : t * option error :=
  if String.eqb (FirstColumn m) "" then
    (m, Some (Errorf "firstColumn is required"))
  else if String.eqb (SecondColumn m) "" then
    (m, Some (Errorf "secondColumn is required"))
  else
    let m := if String.eqb (Strategy m) ""
             then set_Strategy "concat" m else m in
    let m := if String.eqb (ResultColumnName m) ""
             then set_ResultColumnName
                    (FirstColumn m ++ "_" ++ SecondColumn m) m
             else m in
    if negb (slices.Contains validateStrategies (Strategy m)) then
      (m, Some (Errorf ("invalid strategy '" ++ Strategy m
                        ++ "', strategy must be one of "
                        ++ fmt.v validateStrategies)))
    else (m, None).

(** *** The struct in JSON, from its field tags *)

Definition zero : t := Build "" "" "" [] "".

Definition set_FirstColumn (s : string) (m : t) : t :=
  Build s (SecondColumn m) (Strategy m) (DefaultValues m)
    (ResultColumnName m).
Definition set_SecondColumn (s : string) (m : t) : t :=
  Build (FirstColumn m) s (Strategy m) (DefaultValues m)
    (ResultColumnName m).
Definition set_DefaultValues (l : list string) (m : t) : t :=
  Build (FirstColumn m) (SecondColumn m) (Strategy m) l
    (ResultColumnName m).

Definition names : list string :=
  ["firstColumn"; "secondColumn"; "strategy"; "defaultValues";
   "resultColumnName"].

Definition marshal (m : t) : json.Value :=
  json.Object
    ([("firstColumn", json.marshalString (FirstColumn m));
      ("secondColumn", json.marshalString (SecondColumn m));
      ("strategy", json.marshalString (Strategy m))]
     ++ json.omitempty (json.isEmpty (DefaultValues m)) "defaultValues"
          (json.Array (map json.marshalString (DefaultValues m)))
     ++ json.omitempty (String.eqb (ResultColumnName m) "")
          "resultColumnName" (json.marshalString (ResultColumnName m))).

Definition unmarshalField (key : string) (v : json.Value) (m : t)
  : t * option error :=
  match json.lookupField names key with
  | Some 0 =>
      let (s, e) := json.unmarshalString v (FirstColumn m) in
      (set_FirstColumn s m, e)
  | Some 1 =>
      let (s, e) := json.unmarshalString v (SecondColumn m) in
      (set_SecondColumn s m, e)
  | Some 2 =>
      let (s, e) := json.unmarshalString v (Strategy m) in
      (set_Strategy s m, e)
  | Some 3 =>
      let (l, e) :=
        json.unmarshalSlice "[]string" "" json.unmarshalString v
          (DefaultValues m) in
      (set_DefaultValues l m, e)
  | Some 4 =>
      let (s, e) := json.unmarshalString v (ResultColumnName m) in
      (set_ResultColumnName s m, e)
  | _ => (m, None)
  end.

Definition unmarshal : json.Value -> t -> t * option error :=
  json.unmarshalStruct "entities.MergeConfig" unmarshalField.

End MergeConfig.

Module Aggregation.

Record t : Type := Build
  { Column : string;
    AggregateMethod : string;
    ResultName : string }.

Definition set_ResultName (s : string) (a : t) : t :=
  Build (Column a) (AggregateMethod a) s.

Definition validateAggregateMethods : list string :=
  ["sum"; "avg"; "min"; "max"; "count"; "median"].

Definition Validate (a : t) : t * option error :=
  if String.eqb (Column a) "" then
    (a, Some (Errorf "column is required"))
  else if String.eqb (AggregateMethod a) "" then
    (a, Some (Errorf "aggregateMethod is required"))
  else
    let a := if String.eqb (ResultName a) ""
             then set_ResultName (Column a ++ "_" ++ AggregateMethod a) a
             else a in
    if negb (slices.Contains validateAggregateMethods (AggregateMethod a))
    then
      (a, Some (Errorf ("invalid aggregateMethod '" ++ AggregateMethod a
                        ++ "', aggregateMethod must be one of "
                        ++ fmt.v validateAggregateMethods)))
    else (a, None).

(** *** The struct in JSON, from its field tags *)

Definition zero : t := Build "" "" "".

Definition set_Column (s : string) (a : t) : t :=
  Build s (AggregateMethod a) (ResultName a).
Definition set_AggregateMethod (s : string) (a : t) : t :=
  Build (Column a) s (ResultName a).

Definition names : list string :=
  ["column"; "aggregateMethod"; "resultName"].

Definition marshal (a : t) : json.Value :=
  json.Object
    ([("column", json.marshalString (Column a));
      ("aggregateMethod", json.marshalString (AggregateMethod a))]
     ++ json.omitempty (String.eqb (ResultName a) "") "resultName"
          (json.marshalString (ResultName a))).

Definition unmarshalField (key : string) (v : json.Value) (a : t)
  : t * option error :=
  match json.lookupField names key with
  | Some 0 =>
      let (s, e) := json.unmarshalString v (Column a) in
      (set_Column s a, e)
  | Some 1 =>
      let (s, e) := json.unmarshalString v (AggregateMethod a) in
      (set_AggregateMethod s a, e)
  | Some 2 =>
      let (s, e) := json.unmarshalString v (ResultName a) in
      (set_ResultName s a, e)
  | _ => (a, None)
  end.

Definition unmarshal : json.Value -> t -> t * option error :=
  json.unmarshalStruct "entities.Aggregation" unmarshalField.

End Aggregation.

Module AggregationConfig.

Record t : Type := Build
  { GroupingColumns : list string;
    Aggregations : list Aggregation.t }.

Definition Validate (ac : t) : t * option error :=
  if Nat.eqb (length (GroupingColumns ac)) 0 then
    (ac, Some (Errorf "groupingColumns cannot be empty"))
  else if Nat.eqb (length (Aggregations ac)) 0 then
    (ac, Some (Errorf "aggregations cannot be empty"))
  else
    match rangeValidate "aggregation" Aggregation.Validate 0
            (Aggregations ac) with
    | Some err => (ac, Some err)
    | None => (ac, None)
    end.

(** *** The struct in JSON, from its field tags *)

Definition zero : t := Build [] [].

Definition set_GroupingColumns (l : list string) (ac : t) : t :=
  Build l (Aggregations ac).
Definition set_Aggregations (l : list Aggregation.t) (ac : t) : t :=
  Build (GroupingColumns ac) l.

Definition names : list string := ["groupingColumns"; "aggregations"].

Definition marshal (ac : t) : json.Value :=
  json.Object
    [("groupingColumns",
      json.marshalSlice json.marshalString (GroupingColumns ac));
     ("aggregations",
      json.marshalSlice Aggregation.marshal (Aggregations ac))].

Definition unmarshalField (key : string) (v : json.Value) (ac : t)
  : t * option error :=
  match json.lookupField names key with
  | Some 0 =>
      let (l, e) :=
        json.unmarshalSlice "[]string" "" json.unmarshalString v
          (GroupingColumns ac) in
      (set_GroupingColumns l ac, e)
  | Some 1 =>
      let (l, e) :=
        json.unmarshalSlice "[]entities.Aggregation" Aggregation.zero
          Aggregation.unmarshal v (Aggregations ac) in
      (set_Aggregations l ac, e)
  | _ => (ac, None)
  end.

Definition unmarshal : json.Value -> t -> t * option error :=
  json.unmarshalStruct "entities.AggregationConfig" unmarshalField.

End AggregationConfig.

Module Config.

Record t : Type := Build
  { Name : string;
    Description : string;
    Creator : string;
    Type_ : string;
    Source : string;
    Filters : list FilterConfig.t;
    MergeColumns : list MergeConfig.t;
    Aggregations : list AggregationConfig.t;
    OutputFormat : string }.

Definition set_Name (s : string) (c : t) : t :=
  Build s (Description c) (Creator c) (Type_ c) (Source c) (Filters c)
    (MergeColumns c) (Aggregations c) (OutputFormat c).

Definition set_OutputFormat (s : string) (c : t) : t :=
  Build (Name c) (Description c) (Creator c) (Type_ c) (Source c)
    (Filters c) (MergeColumns c) (Aggregations c) s.

Section Validate.

(** The bytes [crypto/rand] delivers to [utils.RandomString]. *)
Variable rand_Read : nat -> ascii.

Definition Validate (c : t) : t * option error :=
  let c := if String.eqb (Name c) ""
           then set_Name ("UntitledConfig_"
                          ++ utils.RandomString rand_Read 10) c
           else c in
  if String.eqb (Type_ c) "" then
    (c, Some (Errorf ("type is required, valid values are: "
                      ++ "csv, googlesheets")))
  else if String.eqb (Source c) "" then
    (c, Some (Errorf "source is required"))
  else
    let c := if String.eqb (OutputFormat c) ""
             then set_OutputFormat "csv" c else c in
    match rangeValidate "filter" FilterConfig.Validate 0 (Filters c) with
    | Some err => (c, Some err)
    | None =>
    match rangeValidate "mergeColumn" MergeConfig.Validate 0
            (MergeColumns c) with
    | Some err => (c, Some err)
    | None =>
    match rangeValidate "aggregation" AggregationConfig.Validate 0
            (Aggregations c) with
    | Some err => (c, Some err)
    | None => (c, None)
    end end end.

End Validate.

(** *** The struct in JSON, from its field tags *)

Definition zero : t := Build "" "" "" "" "" [] [] [] "".

Definition set_Description (s : string) (c : t) : t :=
  Build (Name c) s (Creator c) (Type_ c) (Source c) (Filters c)
    (MergeColumns c) (Aggregations c) (OutputFormat c).
Definition set_Creator (s : string) (c : t) : t :=
  Build (Name c) (Description c) s (Type_ c) (Source c) (Filters c)
    (MergeColumns c) (Aggregations c) (OutputFormat c).
Definition set_Type (s : string) (c : t) : t :=
  Build (Name c) (Description c) (Creator c) s (Source c) (Filters c)
    (MergeColumns c) (Aggregations c) (OutputFormat c).
Definition set_Source (s : string) (c : t) : t :=
  Build (Name c) (Description c) (Creator c) (Type_ c) s (Filters c)
    (MergeColumns c) (Aggregations c) (OutputFormat c).
Definition set_Filters (l : list FilterConfig.t) (c : t) : t :=
  Build (Name c) (Description c) (Creator c) (Type_ c) (Source c) l
    (MergeColumns c) (Aggregations c) (OutputFormat c).
Definition set_MergeColumns (l : list MergeConfig.t) (c : t) : t :=
  Build (Name c) (Description c) (Creator c) (Type_ c) (Source c)
    (Filters c) l (Aggregations c) (OutputFormat c).
Definition set_Aggregations (l : list AggregationConfig.t) (c : t) : t :=
  Build (Name c) (Description c) (Creator c) (Type_ c) (Source c)
    (Filters c) (MergeColumns c) l (OutputFormat c).

Definition names : list string :=
  ["name"; "description"; "creator"; "type"; "source"; "filters";
   "mergeColumns"; "aggregations"; "outputFormat"].

Definition marshal (c : t) : json.Value :=
  json.Object
    ([("name", json.marshalString (Name c));
      ("description", json.marshalString (Description c));
      ("creator", json.marshalString (Creator c));
      ("type", json.marshalString (Type_ c));
      ("source", json.marshalString (Source c))]
     ++ json.omitempty (json.isEmpty (Filters c)) "filters"
          (json.Array (map FilterConfig.marshal (Filters c)))
     ++ json.omitempty (json.isEmpty (MergeColumns c)) "mergeColumns"
          (json.Array (map MergeConfig.marshal (MergeColumns c)))
     ++ json.omitempty (json.isEmpty (Aggregations c)) "aggregations"
          (json.Array (map AggregationConfig.marshal (Aggregations c)))
     ++ [("outputFormat", json.marshalString (OutputFormat c))]).

Definition unmarshalField (key : string) (v : json.Value) (c : t)
  : t * option error :=
  match json.lookupField names key with
  | Some 0 =>
      let (s, e) := json.unmarshalString v (Name c) in (set_Name s c, e)
  | Some 1 =>
      let (s, e) := json.unmarshalString v (Description c) in
      (set_Description s c, e)
  | Some 2 =>
      let (s, e) := json.unmarshalString v (Creator c) in
      (set_Creator s c, e)
  | Some 3 =>
      let (s, e) := json.unmarshalString v (Type_ c) in (set_Type s c, e)
  | Some 4 =>
      let (s, e) := json.unmarshalString v (Source c) in
      (set_Source s c, e)
  | Some 5 =>
      let (l, e) :=
        json.unmarshalSlice "[]entities.FilterConfig" FilterConfig.zero
          FilterConfig.unmarshal v (Filters c) in
      (set_Filters l c, e)
  | Some 6 =>
      let (l, e) :=
        json.unmarshalSlice "[]entities.MergeConfig" MergeConfig.zero
          MergeConfig.unmarshal v (MergeColumns c) in
      (set_MergeColumns l c, e)
  | Some 7 =>
      let (l, e) :=
        json.unmarshalSlice "[]entities.AggregationConfig"
          AggregationConfig.zero AggregationConfig.unmarshal v
          (Aggregations c) in
      (set_Aggregations l c, e)
  | Some 8 =>
      let (s, e) := json.unmarshalString v (OutputFormat c) in
      (set_OutputFormat s c, e)
  | _ => (c, None)
  end.

Definition unmarshal : json.Value -> t -> t * option error :=
  json.unmarshalStruct "entities.Config" unmarshalField.

(** [json.MarshalIndent] of a [Config] has no way to fail: the struct
    holds strings and slices only. [ToJSON] returns the document and a
    nil error. *)
Definition ToJSON (c : t) : json.Value * option error :=
  (marshal c, None).

Section FromJSON.

Variable rand_Read : nat -> ascii.

(** [jsonString] is the document the text denotes. *)
Definition FromJSON (jsonString : json.Value) (c : t)
  : t * option error :=
  match unmarshal jsonString c with
  | (c, Some err) =>
      (c, Some (Errorf_w "failed to unmarshal JSON to Config: " err))
  | (c, None) => Validate rand_Read c
  end.

End FromJSON.

End Config.

(** The [Config] of internal/domain/entities/config.go: the revision of
    the struct with a [sheetID] and a single [filter] string, and no
    [type]. Its [MergeConfig], [AggregationConfig] and [Aggregation] have
    the fields and the [Validate] methods modelled above. *)
Module SheetConfig.

Record t : Type := Build
  { Name : string;
    Description : string;
    Creator : string;
    Source : string;
    SheetID : string;
    Filter : string;
    MergeColumns : list MergeConfig.t;
    Aggregations : list AggregationConfig.t;
    OutputFormat : string }.

Definition set_Name (s : string) (c : t) : t :=
  Build s (Description c) (Creator c) (Source c) (SheetID c) (Filter c)
    (MergeColumns c) (Aggregations c) (OutputFormat c).

Definition set_OutputFormat (s : string) (c : t) : t :=
  Build (Name c) (Description c) (Creator c) (Source c) (SheetID c)
    (Filter c) (MergeColumns c) (Aggregations c) s.

Section Validate.

(** The bytes [crypto/rand] delivers to [utils.RandomString]. *)
Variable rand_Read : nat -> ascii.

Definition Validate (c : t) : t * option error :=
  let c := if String.eqb (Name c) ""
           then set_Name ("UntitledConfig_"
                          ++ utils.RandomString rand_Read 10) c
           else c in
  if String.eqb (Source c) "" then
    (c, Some (Errorf "source is required"))
  else if String.eqb (SheetID c) ""
          && String.eqb (Source c) "googlesheets" then
    (c, Some (Errorf "sheetID is required for Google Sheets source"))
  else
    let c := if String.eqb (OutputFormat c) ""
             then set_OutputFormat "csv" c else c in
    match rangeValidate "mergeColumn" MergeConfig.Validate 0
            (MergeColumns c) with
    | Some err => (c, Some err)
    | None =>
    match rangeValidate "aggregation" AggregationConfig.Validate 0
            (Aggregations c) with
    | Some err => (c, Some err)
    | None => (c, None)
    end end.

End Validate.

End SheetConfig.

(** ** What the Go runtime and standard library supply *)

Module uint64.

Definition modulus : Z := 2 ^ 64.

(** Subtraction of two [uint64]: the difference modulo 2^64. *)
Definition sub (a b : Z) : Z := ((a - b) mod modulus)%Z.

End uint64.

Module float64.

Definition prec : Z := 53.
Definition emax : Z := 1024.

(** The conversion [float64(n)] of an integer: [n] rounded to the nearest
    binary64 number, ties to even. *)
Definition of_int (n : Z) : spec_float :=
  binary_normalize prec emax n 0%Z false.

Definition div : spec_float -> spec_float -> spec_float :=
  SFdiv prec emax.

Definition mul : spec_float -> spec_float -> spec_float :=
  SFmul prec emax.

(** The zero value of a [float64]. *)
Definition zero : spec_float := S754_zero false.

(** [x < 0] and [0 < x]. *)
Definition is_negative (x : spec_float) : bool := SFltb x zero.
Definition is_positive (x : spec_float) : bool := SFltb zero x.

End float64.

Module time.

(** A [Time] holds a wall-clock reading, here in nanoseconds from the
    zero [Time], and, when it comes from [time.Now], a reading of the
    process's monotonic clock; a [Duration] is an [int64] count of
    nanoseconds. *)
Record Time : Type := Build_Time { wall : Z; mono : option Z }.
Definition Duration : Type := Z.

(** The zero value of a [Time]: it has no monotonic reading. *)
Definition zero : Time := Build_Time 0 None.

(** What [time.Now] returns when the wall clock and the monotonic clock
    both read [z]. *)
Definition at_ (z : Z) : Time := Build_Time z (Some z).

Definition minDuration : Z := (- 2 ^ 63)%Z.
Definition maxDuration : Z := (2 ^ 63 - 1)%Z.

(** The difference [d] as a [Duration]: the largest (smallest) one when
    it does not fit. *)
Definition clamp (d : Z) : Duration :=
  Z.max minDuration (Z.min maxDuration d).

(** [t.Sub(u)]: when both times carry a monotonic reading, the
    difference of those readings, whatever the wall clocks say;
    otherwise the difference of the wall-clock readings. *)
Definition Sub (t u : Time) : Duration :=
  match mono t, mono u with
  | Some a, Some b => clamp (a - b)
  | _, _ => clamp (wall t - wall u)
  end.

End time.

Module runtime.

(** The fields of [runtime.MemStats] the package reads. *)
Record MemStats : Type := Build_MemStats
  { Alloc : Z; TotalAlloc : Z; Sys : Z; NumGC : Z }.

End runtime.

(** The outcome of a call that may panic. *)
Inductive outcome (A : Type) : Type :=
| Return (a : A)
| Panic (msg : string).
Arguments Return {A} _.
Arguments Panic {A} _.

(** ** Package entities: the run tracker *)

Module MemoryStats.

Record t : Type := Build
  { PeakAllocBytes : Z;
    PeakSysBytes : Z;
    TotalAllocBytes : Z;
    FinalAllocBytes : Z;
    NumGC : Z;
    MemoryIncreasePercent : spec_float }.

Definition set_PeakAllocBytes (x : Z) (m : t) : t :=
  Build x (PeakSysBytes m) (TotalAllocBytes m) (FinalAllocBytes m)
    (NumGC m) (MemoryIncreasePercent m).
Definition set_PeakSysBytes (x : Z) (m : t) : t :=
  Build (PeakAllocBytes m) x (TotalAllocBytes m) (FinalAllocBytes m)
    (NumGC m) (MemoryIncreasePercent m).
Definition set_TotalAllocBytes (x : Z) (m : t) : t :=
  Build (PeakAllocBytes m) (PeakSysBytes m) x (FinalAllocBytes m)
    (NumGC m) (MemoryIncreasePercent m).
Definition set_FinalAllocBytes (x : Z) (m : t) : t :=
  Build (PeakAllocBytes m) (PeakSysBytes m) (TotalAllocBytes m) x
    (NumGC m) (MemoryIncreasePercent m).
Definition set_NumGC (x : Z) (m : t) : t :=
  Build (PeakAllocBytes m) (PeakSysBytes m) (TotalAllocBytes m)
    (FinalAllocBytes m) x (MemoryIncreasePercent m).
Definition set_MemoryIncreasePercent (x : spec_float) (m : t) : t :=
  Build (PeakAllocBytes m) (PeakSysBytes m) (TotalAllocBytes m)
    (FinalAllocBytes m) (NumGC m) x.

End MemoryStats.

Module PerformanceEntry.

Record t : Type := Build
  { StepName : string;
    StartTime : time.Time;
    EndTime : time.Time;
    Duration : time.Duration;
    InputRows : Z;
    OutputRows : Z;
    MemoryUsageBytes : Z }.

End PerformanceEntry.

Module ProcessingMetadata.

Record t : Type := Build
  { SourceTotalRows : Z;
    FilteredTotalRows : Z;
    AppliedFilters : list string;
    PerformedAggregations : list string;
    PerformedMerges : list string;
    ProcessingTime : time.Duration;
    StartTime : time.Time;
    EndTime : time.Time;
    ConfigName : string;
    DataSource : string;
    MemoryStats : MemoryStats.t;
    StepPerformance : list PerformanceEntry.t }.

Definition set_AppliedFilters (x : list string) (m : t) : t :=
  Build (SourceTotalRows m) (FilteredTotalRows m) x
    (PerformedAggregations m) (PerformedMerges m) (ProcessingTime m)
    (StartTime m) (EndTime m) (ConfigName m) (DataSource m)
    (MemoryStats m) (StepPerformance m).
Definition set_PerformedAggregations (x : list string) (m : t) : t :=
  Build (SourceTotalRows m) (FilteredTotalRows m) (AppliedFilters m)
    x (PerformedMerges m) (ProcessingTime m)
    (StartTime m) (EndTime m) (ConfigName m) (DataSource m)
    (MemoryStats m) (StepPerformance m).
Definition set_PerformedMerges (x : list string) (m : t) : t :=
  Build (SourceTotalRows m) (FilteredTotalRows m) (AppliedFilters m)
    (PerformedAggregations m) x (ProcessingTime m)
    (StartTime m) (EndTime m) (ConfigName m) (DataSource m)
    (MemoryStats m) (StepPerformance m).
Definition set_ProcessingTime (x : time.Duration) (m : t) : t :=
  Build (SourceTotalRows m) (FilteredTotalRows m) (AppliedFilters m)
    (PerformedAggregations m) (PerformedMerges m) x
    (StartTime m) (EndTime m) (ConfigName m) (DataSource m)
    (MemoryStats m) (StepPerformance m).
Definition set_EndTime (x : time.Time) (m : t) : t :=
  Build (SourceTotalRows m) (FilteredTotalRows m) (AppliedFilters m)
    (PerformedAggregations m) (PerformedMerges m) (ProcessingTime m)
    (StartTime m) x (ConfigName m) (DataSource m)
    (MemoryStats m) (StepPerformance m).
Definition set_MemoryStats (x : MemoryStats.t) (m : t) : t :=
  Build (SourceTotalRows m) (FilteredTotalRows m) (AppliedFilters m)
    (PerformedAggregations m) (PerformedMerges m) (ProcessingTime m)
    (StartTime m) (EndTime m) (ConfigName m) (DataSource m)
    x (StepPerformance m).

End ProcessingMetadata.

Module Processing.

Import ProcessingMetadata.

(** [Data] is a [[][]int]: [None] is the nil slice, [Some rows] a slice
    that is not nil (possibly with no row). A row is the list of its
    elements. *)
Record t : Type := Build
  { Data : option (list (list Z));
    Metadata : ProcessingMetadata.t }.

Definition set_Metadata (m : ProcessingMetadata.t) (p : t) : t :=
  Build (Data p) m.

(** [len] of a slice that may be nil. *)
Definition len {A} (s : option (list A)) : nat :=
  match s with None => 0 | Some l => length l end.

(** [now] is what [time.Now] returns and [initMemStats] what
    [runtime.ReadMemStats] fills in. *)
Definition NewProcessing (now : time.Time)
    (initMemStats : runtime.MemStats)
    (data : option (list (list Z))) (configName : string) : t :=
  let totalRows := Z.of_nat (len data) in
  Build data
    (ProcessingMetadata.Build totalRows 0%Z [] [] [] 0%Z now time.zero
       configName ""
       (MemoryStats.Build (runtime.Alloc initMemStats)
          (runtime.Sys initMemStats) (runtime.TotalAlloc initMemStats)
          0%Z (runtime.NumGC initMemStats) float64.zero)
       []).

Definition AddFilter (filterExp : string) (p : t) : t :=
  set_Metadata
    (set_AppliedFilters (AppliedFilters (Metadata p) ++ [filterExp])
       (Metadata p)) p.

Definition AddAggregation (aggregationMethod targetColumn : string)
    (p : t) : t :=
  let aggregation := aggregationMethod ++ "(" ++ targetColumn ++ ")" in
  set_Metadata
    (set_PerformedAggregations
       (PerformedAggregations (Metadata p) ++ [aggregation])
       (Metadata p)) p.

Definition AddMerge (firstColumn secondColumn strategy : string)
    (p : t) : t :=
  let merge :=
    firstColumn ++ " + " ++ secondColumn ++ " (" ++ strategy ++ ")" in
  set_Metadata
    (set_PerformedMerges (PerformedMerges (Metadata p) ++ [merge])
       (Metadata p)) p.



(** The memory statistics after [CompleteProcess], [ms] being the ones
    before and [memStats] the final reading. *)
Definition completeMemoryStats (memStats : runtime.MemStats)
    (ms : MemoryStats.t) : MemoryStats.t :=
  let ms := MemoryStats.set_FinalAllocBytes (runtime.Alloc memStats) ms in
  let ms :=
    MemoryStats.set_TotalAllocBytes (runtime.TotalAlloc memStats) ms in
  let ms := MemoryStats.set_NumGC (runtime.NumGC memStats) ms in
  let ms :=
    if (0 <? MemoryStats.PeakAllocBytes ms)%Z then
      MemoryStats.set_MemoryIncreasePercent
        (float64.mul
           (float64.div
              (float64.of_int
                 (uint64.sub (runtime.Alloc memStats)
                    (MemoryStats.PeakAllocBytes ms)))
              (float64.of_int (MemoryStats.PeakAllocBytes ms)))
           (float64.of_int 100%Z))
        ms
    else ms in
  let ms :=
    if (MemoryStats.PeakAllocBytes ms <? runtime.Alloc memStats)%Z
    then MemoryStats.set_PeakAllocBytes (runtime.Alloc memStats) ms
    else ms in
  if (MemoryStats.PeakSysBytes ms <? runtime.Sys memStats)%Z
  then MemoryStats.set_PeakSysBytes (runtime.Sys memStats) ms
  else ms.

(** [now] is what [time.Now] returns and [memStats] what
    [runtime.ReadMemStats] fills in. *)
Definition CompleteProcess (now : time.Time) (memStats : runtime.MemStats)
    (p : t) : t :=
  let md := set_EndTime now (Metadata p) in
  let md := set_ProcessingTime (time.Sub (EndTime md) (StartTime md)) md in
  let md :=
    set_MemoryStats (completeMemoryStats memStats (MemoryStats md)) md in
  set_Metadata md p.

Definition HasData (p : t) : bool := Nat.ltb 0 (len (Data p)).

Definition GetRowCount (p : t) : nat :=
  match Data p with
  | None => 0
  | Some rows => length rows
  end.

(** [p.Data[0]] panics when the slice has no element. *)
Definition GetColumnCount (p : t) : outcome nat :=
  match Data p with
  | None => Return 0
  | Some rows =>
      match rows with
      | row :: _ => Return (length row)
      | [] =>
          Panic "runtime error: index out of range [0] with length 0"
      end
  end.

Definition GetColumnNames (p : t) : outcome (list string) :=
  Panic "implement me".

End Processing.

(** * Vocabulary of the properties *)

(** ** Validation *)

(** [Validate] (given as [V]) accepts the entry [x]. *)
Definition valid {A : Type} (V : A -> A * option error) (x : A) : Prop :=
  snd (V x) = None.

(** The configuration after the default name, and after both top-level
    defaults; [rand_Read] is the entropy source. *)
Definition named (rand_Read : nat -> ascii) (c : Config.t) : Config.t :=
  if String.eqb (Config.Name c) ""
  then Config.set_Name
         ("UntitledConfig_" ++ utils.RandomString rand_Read 10) c
  else c.

Definition defaulted (rand_Read : nat -> ascii) (c : Config.t) : Config.t :=
  if String.eqb (Config.OutputFormat (named rand_Read c)) ""
  then Config.set_OutputFormat "csv" (named rand_Read c)
  else named rand_Read c.

(** The outcome of the three loops over the nested entries. *)
Definition nested (c : Config.t) : option error :=
  match rangeValidate "filter" FilterConfig.Validate 0 (Config.Filters c)
  with
  | Some err => Some err
  | None =>
      match rangeValidate "mergeColumn" MergeConfig.Validate 0
              (Config.MergeColumns c) with
      | Some err => Some err
      | None =>
          rangeValidate "aggregation" AggregationConfig.Validate 0
            (Config.Aggregations c)
      end
  end.

Definition typeRequired : error :=
  errorString "type is required, valid values are: csv, googlesheets".

Definition sourceRequired : error := errorString "source is required".

(** The three collections of nested entries, in validation order, and the
    name each has in an error's text. *)
Inductive collection : Type := filters | mergeColumns | aggregations.

Definition label (C : collection) : string :=
  match C with
  | filters => "filter"
  | mergeColumns => "mergeColumn"
  | aggregations => "aggregation"
  end.

(** Entry [i] of [xs] is the first one its [Validate] rejects, with error
    [e]; the entries after it are arbitrary. *)
Definition first_invalid {A : Type} (V : A -> A * option error)
    (xs : list A) (i : nat) (e : error) : Prop :=
  exists pre x post,
    xs = (pre ++ x :: post)%list /\ length pre = i
    /\ Forall (valid V) pre /\ snd (V x) = Some e.

(** Entry [i] of collection [C] is the first invalid nested entry of [c] in
    validation order: filters, then mergeColumns, then aggregations. *)
Definition FirstInvalid (c : Config.t) (C : collection) (i : nat)
    (e : error) : Prop :=
  match C with
  | filters =>
      first_invalid FilterConfig.Validate (Config.Filters c) i e
  | mergeColumns =>
      Forall (valid FilterConfig.Validate) (Config.Filters c)
      /\ first_invalid MergeConfig.Validate (Config.MergeColumns c) i e
  | aggregations =>
      Forall (valid FilterConfig.Validate) (Config.Filters c)
      /\ Forall (valid MergeConfig.Validate) (Config.MergeColumns c)
      /\ first_invalid AggregationConfig.Validate (Config.Aggregations c)
           i e
  end.

(** [c] has a nested entry that its [Validate] rejects. *)
Definition HasInvalidEntry (c : Config.t) : Prop :=
  Exists (fun x => ~ valid FilterConfig.Validate x) (Config.Filters c)
  \/ Exists (fun x => ~ valid MergeConfig.Validate x)
       (Config.MergeColumns c)
  \/ Exists (fun x => ~ valid AggregationConfig.Validate x)
       (Config.Aggregations c).

(** ** The run tracker *)

(** Every field of the record except the three logs is the same in [p]
    and [p']. *)
Definition same_outside_logs (p p' : Processing.t) : Prop :=
  let m := Processing.Metadata p in
  let m' := Processing.Metadata p' in
  Processing.Data p' = Processing.Data p
  /\ ProcessingMetadata.SourceTotalRows m'
     = ProcessingMetadata.SourceTotalRows m
  /\ ProcessingMetadata.FilteredTotalRows m'
     = ProcessingMetadata.FilteredTotalRows m
  /\ ProcessingMetadata.ProcessingTime m'
     = ProcessingMetadata.ProcessingTime m
  /\ ProcessingMetadata.StartTime m' = ProcessingMetadata.StartTime m
  /\ ProcessingMetadata.EndTime m' = ProcessingMetadata.EndTime m
  /\ ProcessingMetadata.ConfigName m' = ProcessingMetadata.ConfigName m
  /\ ProcessingMetadata.DataSource m' = ProcessingMetadata.DataSource m
  /\ ProcessingMetadata.MemoryStats m' = ProcessingMetadata.MemoryStats m
  /\ ProcessingMetadata.StepPerformance m'
     = ProcessingMetadata.StepPerformance m.

(** The initial peak and the percentage held by a record, and the
    percentage [CompleteProcess] leaves in it. *)
Definition peakBefore (p : Processing.t) : Z :=
  MemoryStats.PeakAllocBytes
    (ProcessingMetadata.MemoryStats (Processing.Metadata p)).

Definition percentBefore (p : Processing.t) : spec_float :=
  MemoryStats.MemoryIncreasePercent
    (ProcessingMetadata.MemoryStats (Processing.Metadata p)).

Definition percentAfter (now : time.Time) (memStats : runtime.MemStats)
    (p : Processing.t) : spec_float :=
  percentBefore (Processing.CompleteProcess now memStats p).

(** A binary64 number that is not below zero: its sign bit is clear, or
    it is not a number. *)
Definition signless (x : spec_float) : Prop :=
  match x with
  | S754_zero s | S754_infinity s | S754_finite s _ _ => s = false
  | S754_nan => True
  end.

(** ** Strings that JSON keeps: every string of the value is valid UTF-8 *)

Definition validStrings (l : list string) : bool :=
  forallb utf8.ValidString l.

Definition FilterConfig_validUTF8 (fc : FilterConfig.t) : bool :=
  utf8.ValidString (FilterConfig.Column fc)
  && utf8.ValidString (FilterConfig.Value fc)
  && utf8.ValidString (FilterConfig.Operator fc)
  && utf8.ValidString (FilterConfig.LogicalOperator fc).

Definition MergeConfig_validUTF8 (m : MergeConfig.t) : bool :=
  utf8.ValidString (MergeConfig.FirstColumn m)
  && utf8.ValidString (MergeConfig.SecondColumn m)
  && utf8.ValidString (MergeConfig.Strategy m)
  && validStrings (MergeConfig.DefaultValues m)
  && utf8.ValidString (MergeConfig.ResultColumnName m).

Definition Aggregation_validUTF8 (a : Aggregation.t) : bool :=
  utf8.ValidString (Aggregation.Column a)
  && utf8.ValidString (Aggregation.AggregateMethod a)
  && utf8.ValidString (Aggregation.ResultName a).

Definition AggregationConfig_validUTF8 (ac : AggregationConfig.t) : bool :=
  validStrings (AggregationConfig.GroupingColumns ac)
  && forallb Aggregation_validUTF8 (AggregationConfig.Aggregations ac).

Definition Config_validUTF8 (c : Config.t) : bool :=
  utf8.ValidString (Config.Name c)
  && utf8.ValidString (Config.Description c)
  && utf8.ValidString (Config.Creator c)
  && utf8.ValidString (Config.Type_ c)
  && utf8.ValidString (Config.Source c)
  && forallb FilterConfig_validUTF8 (Config.Filters c)
  && forallb MergeConfig_validUTF8 (Config.MergeColumns c)
  && forallb AggregationConfig_validUTF8 (Config.Aggregations c)
  && utf8.ValidString (Config.OutputFormat c).

(** ** Examples *)

(** An entropy source: every byte read is zero. *)
Definition zeroes : nat -> ascii := fun _ => Ascii.zero.

(** The second merge directive has a strategy of no known name. *)
Definition twoMerges : Config.t :=
  Config.Build "report" "" "" "csv" "data.csv" []
    [MergeConfig.Build "a" "b" "" [] "";
     MergeConfig.Build "a" "b" "invalid" [] ""]
    [AggregationConfig.Build [] []] "csv".

(** A blank type, and a filter clause with a blank column. *)
Definition blankType : Config.t :=
  Config.Build "report" "" "" "" "data.csv"
    [FilterConfig.Build "" "10" "gt" "and"] [] [] "csv".

(** A configuration before and after [Validate] with [zeroes]. *)
Definition sampleConfig : Config.t :=
  Config.Build "" "monthly totals" "" "csv" "data.csv"
    [FilterConfig.Build "price" "10" "gt" "and"]
    [MergeConfig.Build "first" "last" "" [] ""]
    [AggregationConfig.Build ["region"]
       [Aggregation.Build "price" "sum" ""]]
    "".

Definition sampleValidated : Config.t :=
  Config.Build "UntitledConfig_00000000000000000000" "monthly totals" ""
    "csv" "data.csv"
    [FilterConfig.Build "price" "10" "gt" "and"]
    [MergeConfig.Build "first" "last" "" [] ""]
    [AggregationConfig.Build ["region"]
       [Aggregation.Build "price" "sum" ""]]
    "csv".

(** The source is a file name in Shift JIS, the bytes 83 66 2E 63 73 76:
    83 starts no UTF-8 sequence. *)
Definition shiftJIS : Config.t :=
  Config.Build "report" "" "" "csv" (String "131" "f.csv") [] [] [] "csv".

(** ** Further vocabulary *)

(** A digit of lower-case hexadecimal. *)
Definition isHexDigit (c : ascii) : bool :=
  utf8.between 48 57 c || utf8.between 97 102 c.

Fixpoint allChars (p : ascii -> bool) (s : string) : bool :=
  match s with
  | EmptyString => true
  | String c s' => p c && allChars p s'
  end.

(** What [MergeConfig.Validate] and [Aggregation.Validate] leave in the
    receiver once the required fields are there: the two defaults. *)
Definition mergeDefaults (m : MergeConfig.t) : MergeConfig.t :=
  MergeConfig.Build (MergeConfig.FirstColumn m) (MergeConfig.SecondColumn m)
    (if String.eqb (MergeConfig.Strategy m) "" then "concat"
     else MergeConfig.Strategy m)
    (MergeConfig.DefaultValues m)
    (if String.eqb (MergeConfig.ResultColumnName m) ""
     then MergeConfig.FirstColumn m ++ "_" ++ MergeConfig.SecondColumn m
     else MergeConfig.ResultColumnName m).

Definition aggregationDefaults (a : Aggregation.t) : Aggregation.t :=
  Aggregation.Build (Aggregation.Column a) (Aggregation.AggregateMethod a)
    (if String.eqb (Aggregation.ResultName a) ""
     then Aggregation.Column a ++ "_" ++ Aggregation.AggregateMethod a
     else Aggregation.ResultName a).

(** The calls [AddFilter(f)] for each [f] of [fs], in order. *)
Definition addFilters (fs : list string) (p : Processing.t)
  : Processing.t :=
  fold_left (fun q f => Processing.AddFilter f q) fs p.

(** A run record for the examples. *)
Definition sampleRun : Processing.t :=
  Processing.NewProcessing (time.at_ 1000)
    (runtime.Build_MemStats 200 200 4096 0)
    (Some [[1; 2; 3]; [4; 5; 6]]%Z) "report".

(** * Properties *)

(** ** Strings and membership *)

Lemma eqb_empty_false (s : string) : s <> "" -> String.eqb s "" = false.
Proof. intro H. now apply String.eqb_neq. Qed.

Lemma Contains_In (l : list string) (x : string) :
  slices.Contains l x = true <-> In x l.
Proof.
  induction l as [|y l IH]; simpl.
  - split; [discriminate | tauto].
  - destruct (String.eqb_spec y x) as [->|Hne].
    + split; auto.
    + rewrite IH. split; [tauto | intros [H|H]; [contradiction | exact H]].
Qed.

Lemma Contains_not_In (l : list string) (x : string) :
  slices.Contains l x = false <-> ~ In x l.
Proof.
  rewrite <- Contains_In.
  destruct (slices.Contains l x); split; intro H; congruence.
Qed.

(** ** The error taxonomy *)

Section AuthenticationRetries.

Import AuthenticationError.

Lemma IsRetryable_spec {E} (e : t E) :
  IsRetryable e = true <-> (RetryAttempt e < MaxRetries e)%Z.
Proof. unfold IsRetryable. apply Z.ltb_lt. Qed.

Lemma wrap_int_small (x : Z) :
  (- 2 ^ 63 <= x < 2 ^ 63)%Z -> wrap_int x = x.
Proof.
  intro H. unfold wrap_int.
  rewrite Z.mod_small by (change (2 ^ 64)%Z with (2 ^ 63 + 2 ^ 63)%Z; lia).
  lia.
Qed.

(** [k] increments take the counter from 0 to [k] (below the wrap-around)
    and touch nothing else. *)
Lemma iter_Increment {E} (message : string) (cause : option E) (k : nat) :
  (Z.of_nat k < 2 ^ 63)%Z ->
  Nat.iter k IncrementRetryAttempt (NewAuthenticationError message cause)
  = Build message cause (Z.of_nat k) 3.
Proof.
  induction k as [|k IH]; intro Hk.
  - reflexivity.
  - change (Nat.iter (S k) IncrementRetryAttempt ?x)
      with (IncrementRetryAttempt (Nat.iter k IncrementRetryAttempt x)).
    rewrite IH by lia. unfold IncrementRetryAttempt.
    cbn [Message Cause RetryAttempt MaxRetries].
    rewrite wrap_int_small by lia. f_equal. lia.
Qed.

(** C7. An [AuthenticationError] is retryable exactly when
    [RetryAttempt < MaxRetries]. [NewAuthenticationError] starts at
    attempt 0 with 3 retries allowed, so after [k] calls of
    [IncrementRetryAttempt] the error is retryable for [k] = 0, 1, 2 and
    no longer at [k] = 3. *)
Theorem AuthenticationError_retry_budget
    (message : string) (cause : option error) :
  let e0 := @NewAuthenticationError error message cause in
  (forall e : t error,
      IsRetryable e = true <-> (RetryAttempt e < MaxRetries e)%Z)
  /\ RetryAttempt e0 = 0%Z
  /\ MaxRetries e0 = 3%Z
  /\ IsRetryable (Nat.iter 0 IncrementRetryAttempt e0) = true
  /\ IsRetryable (Nat.iter 1 IncrementRetryAttempt e0) = true
  /\ IsRetryable (Nat.iter 2 IncrementRetryAttempt e0) = true
  /\ IsRetryable (Nat.iter 3 IncrementRetryAttempt e0) = false.
Proof.
  intro e0. split; [intro e; apply IsRetryable_spec|].
  repeat split; subst e0; rewrite ?iter_Increment by (simpl; lia);
    reflexivity.
Qed.

End AuthenticationRetries.

(** ** Validation of the nested entries *)

(** C4. A merge directive with non-empty [firstColumn] and [secondColumn]
    and blank [strategy] and [resultColumnName] passes [Validate], which
    sets [strategy] to "concat" and [resultColumnName] to
    [firstColumn + "_" + secondColumn] and leaves the rest as it was. *)
Theorem MergeConfig_Validate_fills_defaults (m : MergeConfig.t) :
  MergeConfig.FirstColumn m <> "" ->
  MergeConfig.SecondColumn m <> "" ->
  MergeConfig.Strategy m = "" ->
  MergeConfig.ResultColumnName m = "" ->
  let (m', err) := MergeConfig.Validate m in
  err = None
  /\ MergeConfig.Strategy m' = "concat"
  /\ MergeConfig.ResultColumnName m'
     = MergeConfig.FirstColumn m ++ "_" ++ MergeConfig.SecondColumn m
  /\ MergeConfig.FirstColumn m' = MergeConfig.FirstColumn m
  /\ MergeConfig.SecondColumn m' = MergeConfig.SecondColumn m
  /\ MergeConfig.DefaultValues m' = MergeConfig.DefaultValues m.
Proof.
  destruct m as [fst_col snd_col strategy defaults result]; cbn.
  intros H1 H2 -> ->. unfold MergeConfig.Validate; cbn.
  rewrite (eqb_empty_false _ H1), (eqb_empty_false _ H2).
  cbn. repeat split; reflexivity.
Qed.

Lemma MergeConfig_Validate_fills_defaults_witness :
  MergeConfig.Validate (MergeConfig.Build "a" "b" "" [] "")
  = (MergeConfig.Build "a" "b" "concat" [] "a_b", None).
Proof.
  pose proof (MergeConfig_Validate_fills_defaults
                (MergeConfig.Build "a" "b" "" [] "")) as H.
  cbn in H.
  destruct H as (_ & _ & _); try reflexivity; discriminate.
Defined.

Lemma FilterConfig_Validate_frame (fc : FilterConfig.t) :
  fst (FilterConfig.Validate fc) = fc.
Proof.
  unfold FilterConfig.Validate.
  repeat match goal with |- context [if ?b then _ else _] => destruct b end;
    reflexivity.
Qed.

Lemma FilterConfig_Validate_None (fc : FilterConfig.t) :
  snd (FilterConfig.Validate fc) = None <->
  FilterConfig.Column fc <> ""
  /\ FilterConfig.Value fc <> ""
  /\ In (FilterConfig.Operator fc) ["eq"; "neq"; "gt"; "gte"; "lt"; "lte"]
  /\ In (FilterConfig.LogicalOperator fc) ["and"; "or"].
Proof.
  unfold FilterConfig.Validate.
  destruct (String.eqb_spec (FilterConfig.Column fc) "") as [Hc|Hc];
    [cbn; split; [discriminate | tauto]|].
  destruct (String.eqb_spec (FilterConfig.Value fc) "") as [Hv|Hv];
    [cbn; split; [discriminate | tauto]|].
  destruct (slices.Contains FilterConfig.validateOperators
              (FilterConfig.Operator fc)) eqn:Ho; cbn [negb].
  - apply Contains_In in Ho.
    destruct (slices.Contains FilterConfig.validateLogicalOperators
                (FilterConfig.LogicalOperator fc)) eqn:Hl; cbn [negb snd].
    + apply Contains_In in Hl. tauto.
    + apply Contains_not_In in Hl. split; [discriminate | tauto].
  - apply Contains_not_In in Ho. cbn [snd]. split; [discriminate | tauto].
Qed.

(** ** The range loops of [Validate] *)

Section RangeValidate.

Context {A : Type} (label : string) (V : A -> A * option error).

Lemma rangeValidate_None (i : nat) (xs : list A) :
  rangeValidate label V i xs = None <-> Forall (valid V) xs.
Proof.
  revert i. induction xs as [|x xs IH]; intro i; simpl.
  - split; auto.
  - unfold valid at 1. destruct (snd (V x)) eqn:E.
    + split; [discriminate|]. intro H. inversion H; subst. congruence.
    + rewrite IH. split; intro H.
      * constructor; assumption.
      * now inversion H.
Qed.

(** The loop stops at the first entry that [Validate] rejects, whatever
    follows it. *)
Lemma rangeValidate_first (i : nat) (pre : list A) (x : A)
    (post : list A) (e : error) :
  Forall (valid V) pre -> snd (V x) = Some e ->
  rangeValidate label V i (pre ++ x :: post)
  = Some (Errorf_w (label ++ "[" ++ fmt.d (i + length pre) ++ "]: ") e).
Proof.
  revert i. induction pre as [|y pre IH]; intros i Hpre Hx; simpl.
  - rewrite Hx. now rewrite Nat.add_0_r.
  - inversion Hpre as [|? ? Hy Hpre']; subst. unfold valid in Hy.
    rewrite Hy, (IH (S i) Hpre' Hx).
    now replace (S i + length pre) with (i + S (length pre)) by lia.
Qed.

(** A list with an entry that [Validate] rejects has a first one. *)
Lemma first_rejected (xs : list A) :
  Exists (fun x => ~ valid V x) xs ->
  exists pre x post e,
    xs = (pre ++ x :: post)%list /\ Forall (valid V) pre
    /\ snd (V x) = Some e.
Proof.
  induction xs as [|x xs IH]; intro H; [inversion H|].
  destruct (snd (V x)) as [e|] eqn:E.
  - exists [], x, xs, e. auto.
  - inversion H as [? ? Hx|? ? Hxs]; subst; [now elim Hx|].
    destruct (IH Hxs) as (pre & y & post & e & -> & Hpre & Hy).
    exists (x :: pre), y, post, e. repeat split; auto.
Qed.

End RangeValidate.

(** ** [Config.Validate] *)

Section ConfigValidate.

Import Config.

Variable rand_Read : nat -> ascii.

Lemma Validate_eq (c : Config.t) :
  Validate rand_Read c
  = if String.eqb (Type_ c) "" then
      (named rand_Read c, Some typeRequired)
    else if String.eqb (Source c) "" then
      (named rand_Read c, Some sourceRequired)
    else (defaulted rand_Read c, nested c).
Proof.
  unfold Validate, defaulted, nested, named.
  destruct c as [name desc creator type source fs ms ags out]; cbn.
  destruct (String.eqb name ""); cbn;
    destruct (String.eqb type ""); cbn; try reflexivity;
    destruct (String.eqb source ""); cbn; try reflexivity;
    destruct (String.eqb out ""); cbn;
    destruct (rangeValidate "filter" _ 0 fs); try reflexivity;
    destruct (rangeValidate "mergeColumn" _ 0 ms); try reflexivity;
    destruct (rangeValidate "aggregation" _ 0 ags); reflexivity.
Qed.

Lemma named_fields (c : Config.t) :
  Name (named rand_Read c)
  = (if String.eqb (Name c) ""
     then "UntitledConfig_" ++ utils.RandomString rand_Read 10
     else Name c)
  /\ Description (named rand_Read c) = Description c
  /\ Creator (named rand_Read c) = Creator c
  /\ Type_ (named rand_Read c) = Type_ c
  /\ Source (named rand_Read c) = Source c
  /\ Filters (named rand_Read c) = Filters c
  /\ MergeColumns (named rand_Read c) = MergeColumns c
  /\ Aggregations (named rand_Read c) = Aggregations c
  /\ OutputFormat (named rand_Read c) = OutputFormat c.
Proof.
  unfold named. destruct (String.eqb (Name c) ""); cbn; tauto.
Qed.

Lemma defaulted_fields (c : Config.t) :
  Name (defaulted rand_Read c) = Name (named rand_Read c)
  /\ Description (defaulted rand_Read c) = Description c
  /\ Creator (defaulted rand_Read c) = Creator c
  /\ Type_ (defaulted rand_Read c) = Type_ c
  /\ Source (defaulted rand_Read c) = Source c
  /\ Filters (defaulted rand_Read c) = Filters c
  /\ MergeColumns (defaulted rand_Read c) = MergeColumns c
  /\ Aggregations (defaulted rand_Read c) = Aggregations c
  /\ OutputFormat (defaulted rand_Read c)
     = (if String.eqb (OutputFormat c) "" then "csv" else OutputFormat c).
Proof.
  destruct (named_fields c) as (_ & H2 & H3 & H4 & H5 & H6 & H7 & H8 & H9).
  unfold defaulted. rewrite H9.
  destruct (String.eqb (OutputFormat c) ""); cbn; tauto.
Qed.

Lemma named_nonempty (c : Config.t) : Name (named rand_Read c) <> "".
Proof.
  destruct (named_fields c) as (H & _). rewrite H.
  destruct (String.eqb_spec (Name c) ""); [discriminate | assumption].
Qed.

Lemma RandomString_length (n : nat) :
  String.length (utils.RandomString rand_Read n) = 2 * n.
Proof.
  unfold utils.RandomString.
  assert (H : forall l, String.length (hex.EncodeToString l)
                        = 2 * List.length l).
  { induction l as [|b l IH]; simpl; [reflexivity|]. rewrite IH. lia. }
  now rewrite H, length_map, length_seq.
Qed.

End ConfigValidate.

(** ** Hexadecimal names *)

Lemma hextable_isHexDigit (n : N) : isHexDigit (hex.hextable n) = true.
Proof.
  unfold hex.hextable.
  destruct n as [|p]; [reflexivity|].
  do 4 (destruct p as [p|p|]; try reflexivity).
Qed.

Lemma EncodeToString_chars (src : list ascii) :
  allChars isHexDigit (hex.EncodeToString src) = true.
Proof.
  induction src as [|b src IH]; [reflexivity|].
  cbn [hex.EncodeToString allChars].
  now rewrite !hextable_isHexDigit, IH.
Qed.

Lemma hextable_injective (x y : N) :
  (x < 16)%N -> (y < 16)%N -> hex.hextable x = hex.hextable y -> x = y.
Proof.
  intros Hx Hy.
  assert (Cx : In x [0; 1; 2; 3; 4; 5; 6; 7; 8; 9; 10; 11; 12; 13; 14;
                     15]%N) by (cbn; lia).
  assert (Cy : In y [0; 1; 2; 3; 4; 5; 6; 7; 8; 9; 10; 11; 12; 13; 14;
                     15]%N) by (cbn; lia).
  cbn in Cx, Cy.
  repeat (destruct Cx as [Cx|Cx]; [subst x|]); try contradiction;
    repeat (destruct Cy as [Cy|Cy]; [subst y|]); try contradiction;
    cbn; intro H; try reflexivity; discriminate.
Qed.

Lemma hex_digits_injective (a b : ascii) :
  hex.hextable (N.shiftr (N_of_ascii a) 4)
  = hex.hextable (N.shiftr (N_of_ascii b) 4) ->
  hex.hextable (N.land (N_of_ascii a) 15)
  = hex.hextable (N.land (N_of_ascii b) 15) ->
  a = b.
Proof.
  assert (Hhi : forall c, (N.shiftr (N_of_ascii c) 4 < 16)%N).
  { intro c. rewrite N.shiftr_div_pow2.
    apply N.Div0.div_lt_upper_bound.
    pose proof (N_ascii_bounded c). cbn. lia. }
  assert (Hlo : forall c, (N.land (N_of_ascii c) 15 < 16)%N).
  { intro c. change 15%N with (N.ones 4). rewrite N.land_ones.
    now apply N.mod_lt. }
  intros H1 H2.
  apply hextable_injective in H1; auto.
  apply hextable_injective in H2; auto.
  rewrite !N.shiftr_div_pow2 in H1.
  change 15%N with (N.ones 4) in H2. rewrite !N.land_ones in H2.
  rewrite <- (ascii_N_embedding a), <- (ascii_N_embedding b). f_equal.
  rewrite (N.div_mod (N_of_ascii a) (2 ^ 4)) by discriminate.
  rewrite (N.div_mod (N_of_ascii b) (2 ^ 4)) by discriminate.
  now rewrite H1, H2.
Qed.

Lemma EncodeToString_injective (xs ys : list ascii) :
  hex.EncodeToString xs = hex.EncodeToString ys -> xs = ys.
Proof.
  revert ys. induction xs as [|x xs IH]; intros [|y ys] H;
    try reflexivity; try discriminate.
  cbn [hex.EncodeToString] in H. injection H as H1 H2 H3.
  f_equal; [now apply hex_digits_injective | now apply IH].
Qed.

Lemma RandomString_determines_bytes (rand_Read rand_Read' : nat -> ascii)
    (n : nat) :
  utils.RandomString rand_Read n = utils.RandomString rand_Read' n ->
  forall i, i < n -> rand_Read i = rand_Read' i.
Proof.
  unfold utils.RandomString. intros H i Hi.
  apply EncodeToString_injective in H.
  assert (Hin : In i (seq 0 n)) by (apply in_seq; lia).
  revert Hin. generalize (seq 0 n) H. clear.
  induction l as [|k l IH]; intros H Hin; [destruct Hin|].
  cbn in H. injection H as H1 H2.
  destruct Hin as [Hk|Hk]; [now subst | auto].
Qed.

Section ConfigClaims.

Import Config.

Variable rand_Read : nat -> ascii.

Local Abbreviation Validate := (Config.Validate rand_Read).

(** C1, as the code has it. With a blank source and a non-blank type,
    [Validate] fails with the error [fmt.Errorf("source is required")]:
    its text names the source field, and it is a plain error that is not
    a [ConfigurationError] and wraps none, so [IsConfigurationError] is
    false on it. *)
Theorem Validate_blank_source (c : Config.t) :
  Type_ c <> "" -> Source c = "" ->
  snd (Validate c) = Some (Errorf "source is required")
  /\ errors.Error (Errorf "source is required") = "source is required"
  /\ errors.Unwrap (Errorf "source is required") = None
  /\ IsConfigurationError (snd (Validate c)) = false.
Proof.
  intros Ht Hs. rewrite Validate_eq, (eqb_empty_false _ Ht), Hs.
  cbn. repeat split; reflexivity.
Qed.

(** C8. When [Validate] succeeds the configuration has a non-empty name,
    the given one or else "UntitledConfig_" followed by 20 hexadecimal
    digits drawn at random, and a non-empty output format, the given one
    or else "csv"; and with a blank type or a blank source [Validate]
    fails. A blank name or output format is no ground for failure: with
    type and source present and every nested entry valid, [Validate]
    succeeds and returns the configuration with exactly these two
    defaults written. The digits are the hexadecimal of the ten random
    bytes, so they determine those bytes. *)
Theorem Validate_success_defaults (c : Config.t) :
  (forall c', Validate c = (c', None) ->
     Name c' <> "" /\ OutputFormat c' <> ""
     /\ Name c'
        = (if String.eqb (Name c) ""
           then "UntitledConfig_" ++ utils.RandomString rand_Read 10
           else Name c)
     /\ String.length (utils.RandomString rand_Read 10) = 20
     /\ OutputFormat c'
        = (if String.eqb (OutputFormat c) "" then "csv"
           else OutputFormat c))
  /\ (Type_ c = "" \/ Source c = "" ->
      exists err, snd (Validate c) = Some err)
  /\ (Type_ c <> "" -> Source c <> "" ->
      Forall (valid FilterConfig.Validate) (Filters c) ->
      Forall (valid MergeConfig.Validate) (MergeColumns c) ->
      Forall (valid AggregationConfig.Validate) (Aggregations c) ->
      Validate c
      = (Config.Build
           (if String.eqb (Name c) ""
            then "UntitledConfig_" ++ utils.RandomString rand_Read 10
            else Name c)
           (Description c) (Creator c) (Type_ c) (Source c) (Filters c)
           (MergeColumns c) (Aggregations c)
           (if String.eqb (OutputFormat c) "" then "csv"
            else OutputFormat c),
         None))
  /\ allChars isHexDigit (utils.RandomString rand_Read 10) = true
  /\ (forall rand_Read' : nat -> ascii,
        utils.RandomString rand_Read 10 = utils.RandomString rand_Read' 10 ->
        forall i, i < 10 -> rand_Read i = rand_Read' i).
Proof.
  split; [|split; [|split; [|split]]].
  - intros c'. rewrite Validate_eq.
    destruct (String.eqb (Type_ c) ""); [discriminate|].
    destruct (String.eqb (Source c) ""); [discriminate|].
    intro H. injection H as <- _.
    destruct (defaulted_fields rand_Read c)
      as (Hn & _ & _ & _ & _ & _ & _ & _ & Ho).
    destruct (named_fields rand_Read c) as (Hn' & _).
    rewrite Ho, Hn, <- Hn'.
    split; [apply named_nonempty|].
    split; [|auto using RandomString_length].
    destruct (String.eqb_spec (OutputFormat c) "");
      [discriminate | assumption].
  - rewrite Validate_eq. intros [H|H].
    + rewrite H. cbn. eauto.
    + rewrite H. destruct (String.eqb (Type_ c) ""); cbn; eauto.
  - intros Ht Hs Hf Hm Ha. rewrite Validate_eq.
    rewrite (eqb_empty_false _ Ht), (eqb_empty_false _ Hs).
    apply (rangeValidate_None "filter" _ 0) in Hf.
    apply (rangeValidate_None "mergeColumn" _ 0) in Hm.
    apply (rangeValidate_None "aggregation" _ 0) in Ha.
    unfold nested. rewrite Hf, Hm, Ha. f_equal.
    unfold defaulted, named.
    destruct c as [name desc creator type source fs ms ags out]; cbn.
    destruct (String.eqb name ""); cbn; destruct (String.eqb out "");
      reflexivity.
  - unfold utils.RandomString. apply EncodeToString_chars.
  - intro rand_Read'. apply RandomString_determines_bytes.
Qed.

(** C6. [FilterConfig.Validate] passes exactly when column and value are
    non-empty, the operator is one of eq, neq, gt, gte, lt, lte and the
    logical operator is one of and, or. So [Config.Validate] fails on
    every configuration whose last filter clause has a logical operator
    outside and, or, although that clause combines with no other. *)
Theorem FilterConfig_Validate_passes_exactly :
  (forall fc : FilterConfig.t,
      snd (FilterConfig.Validate fc) = None <->
      FilterConfig.Column fc <> ""
      /\ FilterConfig.Value fc <> ""
      /\ In (FilterConfig.Operator fc)
           ["eq"; "neq"; "gt"; "gte"; "lt"; "lte"]
      /\ In (FilterConfig.LogicalOperator fc) ["and"; "or"])
  /\ (forall (c : Config.t) (fs : list FilterConfig.t)
             (f : FilterConfig.t),
        Filters c = (fs ++ [f])%list ->
        ~ In (FilterConfig.LogicalOperator f) ["and"; "or"] ->
        exists err, snd (Validate c) = Some err).
Proof.
  split; [apply FilterConfig_Validate_None|].
  intros c fs f Hfs Hop. rewrite Validate_eq.
  destruct (String.eqb (Type_ c) ""); [cbn; eauto|].
  destruct (String.eqb (Source c) ""); [cbn; eauto|].
  cbn [snd]. unfold nested.
  destruct (rangeValidate "filter" FilterConfig.Validate 0 (Filters c))
    as [err|] eqn:E; [eauto|].
  apply rangeValidate_None in E. rewrite Hfs in E.
  apply Forall_app in E as [_ E]. inversion E as [|? ? Hf _]; subst.
  apply FilterConfig_Validate_None in Hf. tauto.
Qed.

(** [Validate] writes at most the name and the output format. Every
    nested entry is left as it was, when [Validate] succeeds and when it
    fails: the defaults of a nested entry are written to the loop's copy
    of that entry. *)
Theorem Validate_keeps_nested_entries (c : Config.t) :
  let c' := fst (Validate c) in
  Description c' = Description c
  /\ Creator c' = Creator c
  /\ Type_ c' = Type_ c
  /\ Source c' = Source c
  /\ Filters c' = Filters c
  /\ MergeColumns c' = MergeColumns c
  /\ Aggregations c' = Aggregations c.
Proof.
  cbv zeta. rewrite Validate_eq.
  destruct (named_fields rand_Read c)
    as (_ & N1 & N2 & N3 & N4 & N5 & N6 & N7 & _).
  destruct (defaulted_fields rand_Read c)
    as (_ & D1 & D2 & D3 & D4 & D5 & D6 & D7 & _).
  destruct (String.eqb (Type_ c) ""); [cbn [fst]; tauto|].
  destruct (String.eqb (Source c) ""); cbn [fst]; tauto.
Qed.

End ConfigClaims.

Lemma Validate_blank_source_witness :
  snd (Config.Validate zeroes (Config.Build "" "" "" "csv" "" [] [] [] ""))
  = Some (Errorf "source is required").
Proof.
  apply (Validate_blank_source zeroes
           (Config.Build "" "" "" "csv" "" [] [] [] ""));
    [discriminate | reflexivity].
Defined.

(** C1 as the specification words it fails: on [{source: "", type: "csv"}]
    the error of [Validate] is not a [ConfigurationError]. *)
Lemma Validate_blank_source_is_plain_error :
  IsConfigurationError
    (snd (Config.Validate zeroes
            (Config.Build "" "" "" "csv" "" [] [] [] "")))
  = false.
Proof. reflexivity. Qed.

Lemma Validate_success_defaults_witness :
  Config.Validate zeroes sampleConfig = (sampleValidated, None)
  /\ (Config.Name sampleValidated <> ""
      /\ Config.OutputFormat sampleValidated = "csv")
  /\ exists err,
      snd (Config.Validate zeroes
             (Config.Build "n" "" "" "" "data.csv" [] [] [] ""))
      = Some err.
Proof.
  assert (H : Config.Validate zeroes sampleConfig = (sampleValidated, None)).
  { rewrite (proj1 (proj2 (proj2 (Validate_success_defaults zeroes
                                    sampleConfig))));
      try discriminate; try reflexivity; repeat constructor. }
  split; [exact H|]. split.
  - destruct (proj1 (Validate_success_defaults zeroes sampleConfig)
                sampleValidated H) as (H1 & _ & _ & _ & H2).
    split; [exact H1 | exact H2].
  - apply (proj1 (proj2 (Validate_success_defaults zeroes
                           (Config.Build "n" "" "" "" "data.csv" [] [] []
                              "")))).
    left. reflexivity.
Defined.

Lemma FilterConfig_Validate_passes_exactly_witness :
  exists err,
    snd (Config.Validate zeroes
           (Config.Build "n" "" "" "csv" "data.csv"
              [FilterConfig.Build "price" "10" "gt" "and";
               FilterConfig.Build "region" "A" "eq" ""]
              [] [] "csv"))
    = Some err.
Proof.
  apply (proj2 (FilterConfig_Validate_passes_exactly zeroes) _
           [FilterConfig.Build "price" "10" "gt" "and"]
           (FilterConfig.Build "region" "A" "eq" ""));
    [reflexivity|].
  cbn. intros [H|[H|[]]]; discriminate.
Defined.

(** ** Fail-fast validation of the nested entries *)

Lemma Forall_valid_dec {A} (V : A -> A * option error) (xs : list A) :
  Forall (valid V) xs \/ Exists (fun x => ~ valid V x) xs.
Proof.
  induction xs as [|x xs [IH|IH]]; auto.
  destruct (snd (V x)) eqn:E.
  - right. left. unfold valid. congruence.
  - left. constructor; assumption.
Qed.

Lemma first_invalid_exists {A} (V : A -> A * option error) (xs : list A) :
  Exists (fun x => ~ valid V x) xs -> exists i e, first_invalid V xs i e.
Proof.
  intro H. destruct (first_rejected V xs H)
    as (pre & x & post & e & Hxs & Hpre & Hx).
  exists (length pre), e, pre, x, post. auto.
Qed.

Lemma rangeValidate_first_invalid {A} (lbl : string)
    (V : A -> A * option error) (xs : list A) (i : nat) (e : error) :
  first_invalid V xs i e ->
  rangeValidate lbl V 0 xs
  = Some (Errorf_w (lbl ++ "[" ++ fmt.d i ++ "]: ") e).
Proof.
  intros (pre & x & post & -> & <- & Hpre & Hx).
  now rewrite (rangeValidate_first lbl V 0 pre x post e Hpre Hx).
Qed.

Lemma FirstInvalid_exists (c : Config.t) :
  HasInvalidEntry c -> exists C i e, FirstInvalid c C i e.
Proof.
  intro H.
  destruct (Forall_valid_dec FilterConfig.Validate (Config.Filters c))
    as [Hf|Hf].
  2:{ destruct (first_invalid_exists _ _ Hf) as (i & e & Hi).
      now exists filters, i, e. }
  destruct (Forall_valid_dec MergeConfig.Validate (Config.MergeColumns c))
    as [Hm|Hm].
  2:{ destruct (first_invalid_exists _ _ Hm) as (i & e & Hi).
      now exists mergeColumns, i, e. }
  destruct H as [H|[H|H]].
  - exfalso. apply Exists_exists in H as (x & Hin & Hx).
    rewrite Forall_forall in Hf. auto.
  - exfalso. apply Exists_exists in H as (x & Hin & Hx).
    rewrite Forall_forall in Hm. auto.
  - destruct (first_invalid_exists _ _ H) as (i & e & Hi).
    now exists aggregations, i, e.
Qed.

Lemma nested_FirstInvalid (c : Config.t) (C : collection) (i : nat)
    (e : error) :
  FirstInvalid c C i e ->
  nested c = Some (Errorf_w (label C ++ "[" ++ fmt.d i ++ "]: ") e).
Proof.
  unfold nested. destruct C; cbn [FirstInvalid label].
  - intro H. now rewrite (rangeValidate_first_invalid "filter" _ _ _ _ H).
  - intros [Hf H]. apply (rangeValidate_None "filter" _ 0) in Hf.
    now rewrite Hf, (rangeValidate_first_invalid "mergeColumn" _ _ _ _ H).
  - intros (Hf & Hm & H). apply (rangeValidate_None "filter" _ 0) in Hf.
    apply (rangeValidate_None "mergeColumn" _ 0) in Hm.
    now rewrite Hf, Hm,
      (rangeValidate_first_invalid "aggregation" _ _ _ _ H).
Qed.

(** C5, as the code has it. On a configuration with non-blank type and
    source and at least one invalid nested entry, [Validate] returns the
    error of the first invalid entry in validation order, wrapped with the
    collection's name and the entry's index. The result is fixed by that
    entry alone, whatever entries follow it, and the nested entries of the
    configuration are left as they were: no default is written to them. *)
Theorem Validate_fails_fast (rand_Read : nat -> ascii) (c : Config.t) :
  Config.Type_ c <> "" -> Config.Source c <> "" ->
  HasInvalidEntry c ->
  exists C i e,
    FirstInvalid c C i e
    /\ snd (Config.Validate rand_Read c)
       = Some (Errorf_w (label C ++ "[" ++ fmt.d i ++ "]: ") e)
    /\ errors.Unwrap (Errorf_w (label C ++ "[" ++ fmt.d i ++ "]: ") e)
       = Some e
    /\ (forall c', Config.Type_ c' <> "" -> Config.Source c' <> "" ->
          FirstInvalid c' C i e ->
          snd (Config.Validate rand_Read c')
          = snd (Config.Validate rand_Read c))
    /\ Config.Filters (fst (Config.Validate rand_Read c))
       = Config.Filters c
    /\ Config.MergeColumns (fst (Config.Validate rand_Read c))
       = Config.MergeColumns c
    /\ Config.Aggregations (fst (Config.Validate rand_Read c))
       = Config.Aggregations c.
Proof.
  intros Ht Hs H. destruct (FirstInvalid_exists c H) as (C & i & e & Hi).
  exists C, i, e. rewrite Validate_eq.
  rewrite (eqb_empty_false _ Ht), (eqb_empty_false _ Hs). cbn [fst snd].
  rewrite (nested_FirstInvalid c C i e Hi).
  destruct (defaulted_fields rand_Read c)
    as (_ & _ & _ & _ & _ & Hf & Hm & Ha & _).
  repeat split; auto.
  intros c' Ht' Hs' Hi'. rewrite Validate_eq.
  rewrite (eqb_empty_false _ Ht'), (eqb_empty_false _ Hs'). cbn [snd].
  apply (nested_FirstInvalid c' C i e Hi').
Qed.

Lemma Validate_fails_fast_witness :
  snd (Config.Validate zeroes twoMerges)
  = Some (wrapError
            ("mergeColumn[1]: invalid strategy 'invalid', "
             ++ "strategy must be one of [concat sum first second]")
            (errorString
               ("invalid strategy 'invalid', "
                ++ "strategy must be one of [concat sum first second]")))
  /\ exists C i e, FirstInvalid twoMerges C i e.
Proof.
  split; [reflexivity|].
  assert (Ht : Config.Type_ twoMerges <> "") by discriminate.
  assert (Hs : Config.Source twoMerges <> "") by discriminate.
  assert (H : HasInvalidEntry twoMerges).
  { right. left. cbn. apply Exists_cons_tl, Exists_cons_hd. discriminate. }
  destruct (Validate_fails_fast zeroes twoMerges Ht Hs H)
    as (C & i & e & Hi & _).
  now exists C, i, e.
Defined.

(** C5 as the specification words it fails when the type is blank: the
    first clause of [blankType] is invalid, and [Validate] returns the
    error of the type check, not the error of that clause. *)
Lemma Validate_blank_type_hides_entry :
  FirstInvalid blankType filters 0 (errorString "column is required")
  /\ snd (Config.Validate zeroes blankType)
     = Some (errorString
               "type is required, valid values are: csv, googlesheets")
  /\ snd (Config.Validate zeroes blankType)
     <> Some (Errorf_w (label filters ++ "[" ++ fmt.d 0 ++ "]: ")
                (errorString "column is required")).
Proof.
  split; [|split; [reflexivity | discriminate]].
  exists [], (FilterConfig.Build "" "10" "gt" "and"), [].
  repeat split; constructor.
Qed.

(** ** The run tracker *)

Section ProcessingLogs.

Import ProcessingMetadata Processing.

(** C9. [AddFilter], [AddMerge] and [AddAggregation] each append one
    entry to their own log, after the entries already recorded, and
    leave the other two logs and every other field of the record as
    they were. *)
Theorem Add_appends_one_entry (p : Processing.t)
    (filterExp firstColumn secondColumn strategy : string)
    (aggregationMethod targetColumn : string) :
  (let p' := AddFilter filterExp p in
   AppliedFilters (Metadata p')
   = (AppliedFilters (Metadata p) ++ [filterExp])%list
   /\ PerformedMerges (Metadata p') = PerformedMerges (Metadata p)
   /\ PerformedAggregations (Metadata p')
      = PerformedAggregations (Metadata p)
   /\ same_outside_logs p p')
  /\ (let p' := AddMerge firstColumn secondColumn strategy p in
      PerformedMerges (Metadata p')
      = (PerformedMerges (Metadata p)
         ++ [(firstColumn ++ " + " ++ secondColumn
              ++ " (" ++ strategy ++ ")")%string])%list
      /\ AppliedFilters (Metadata p') = AppliedFilters (Metadata p)
      /\ PerformedAggregations (Metadata p')
         = PerformedAggregations (Metadata p)
      /\ same_outside_logs p p')
  /\ (let p' := AddAggregation aggregationMethod targetColumn p in
      PerformedAggregations (Metadata p')
      = (PerformedAggregations (Metadata p)
         ++ [(aggregationMethod ++ "(" ++ targetColumn
              ++ ")")%string])%list
      /\ AppliedFilters (Metadata p') = AppliedFilters (Metadata p)
      /\ PerformedMerges (Metadata p') = PerformedMerges (Metadata p)
      /\ same_outside_logs p p').
Proof.
  destruct p as [data md]. destruct md. unfold same_outside_logs.
  cbn. repeat split; reflexivity.
Qed.

(** [GetColumnCount] where it returns: 0 on nil data, and the length of
    the first row when there is one. *)
Theorem GetColumnCount_returns (p : Processing.t) :
  (Data p = None -> GetColumnCount p = Return 0)
  /\ (forall row rows,
        Data p = Some (row :: rows) ->
        GetColumnCount p = Return (length row)).
Proof.
  unfold GetColumnCount. split.
  - now intros ->.
  - now intros row rows ->.
Qed.

(** C10, where the code departs from it. A [Processing] made from a
    slice that is not nil and has no row has zero rows for
    [GetRowCount] and [HasData], and [GetColumnCount] panics on it: the
    nil check passes and [p.Data[0]] is out of range. *)
Theorem GetColumnCount_no_rows_panics (now : time.Time)
    (initMemStats : runtime.MemStats) (configName : string) :
  let p := NewProcessing now initMemStats (Some []) configName in
  Data p = Some []
  /\ GetRowCount p = 0
  /\ HasData p = false
  /\ GetColumnCount p
     = Panic "runtime error: index out of range [0] with length 0".
Proof. cbn. repeat split; reflexivity. Qed.

End ProcessingLogs.

Lemma GetColumnCount_returns_witness :
  Processing.GetColumnCount
    (Processing.NewProcessing (time.at_ 0) (runtime.Build_MemStats 0 0 0 0)
       (Some [[1; 2; 3]; [4; 5; 6]]%Z) "run")
  = Return 3.
Proof.
  apply (proj2 (GetColumnCount_returns _) [1; 2; 3]%Z [[4; 5; 6]%Z]).
  reflexivity.
Defined.

(** ** Memory growth in [CompleteProcess] *)

Section MemoryGrowth.

Import Processing.

Lemma percentAfter_eq now memStats p :
  percentAfter now memStats p
  = if (0 <? peakBefore p)%Z
    then float64.mul
           (float64.div
              (float64.of_int
                 (uint64.sub (runtime.Alloc memStats) (peakBefore p)))
              (float64.of_int (peakBefore p)))
           (float64.of_int 100)
    else percentBefore p.
Proof.
  unfold percentAfter, peakBefore, percentBefore, CompleteProcess,
    completeMemoryStats.
  destruct p as [data md]. destruct md as [? ? ? ? ? ? ? ? ? ? ms ?].
  destruct ms as [peak sys total final gc pct]. cbn.
  destruct (0 <? peak)%Z; cbn;
    repeat match goal with
           | |- context [if ?b then _ else _] => destruct b; cbn
           end; reflexivity.
Qed.

(** With an initial peak of zero the percentage is left as it was. *)
Lemma percentAfter_zero_peak now memStats p :
  peakBefore p = 0%Z -> percentAfter now memStats p = percentBefore p.
Proof. intro H. now rewrite percentAfter_eq, H. Qed.

(** With a final allocation at or above the initial peak the percentage
    is the quotient of the growth by the peak, times 100, in binary64. *)
Lemma percentAfter_growth now memStats p :
  (0 < peakBefore p <= runtime.Alloc memStats)%Z ->
  (runtime.Alloc memStats < uint64.modulus)%Z ->
  percentAfter now memStats p
  = float64.mul
      (float64.div
         (float64.of_int (runtime.Alloc memStats - peakBefore p))
         (float64.of_int (peakBefore p)))
      (float64.of_int 100).
Proof.
  intros H1 H2. rewrite percentAfter_eq.
  destruct (Z.ltb_spec 0 (peakBefore p)); [|lia].
  unfold uint64.sub. now rewrite Z.mod_small by lia.
Qed.

(** The percentage of [CompleteProcess] where memory did not shrink: the
    growth over the initial peak, times 100, when the peak is positive,
    and the value held before when the peak is zero. *)
Theorem CompleteProcess_percent_of_growth now memStats p :
  (peakBefore p = 0%Z -> percentAfter now memStats p = percentBefore p)
  /\ ((0 < peakBefore p <= runtime.Alloc memStats)%Z ->
      (runtime.Alloc memStats < uint64.modulus)%Z ->
      percentAfter now memStats p
      = float64.mul
          (float64.div
             (float64.of_int (runtime.Alloc memStats - peakBefore p))
             (float64.of_int (peakBefore p)))
          (float64.of_int 100)).
Proof.
  split; [apply percentAfter_zero_peak | apply percentAfter_growth].
Qed.

Lemma binary_round_aux_signless mx ex lx :
  signless (binary_round_aux float64.prec float64.emax false mx ex lx).
Proof.
  unfold binary_round_aux.
  destruct (shr_fexp float64.prec float64.emax mx ex lx) as [mrs' e'].
  destruct (shr_fexp _ _ _ e' loc_Exact) as [mrs'' e''].
  destruct (shr_m mrs''); cbn; auto.
  destruct (Z.leb e'' _); cbn; auto.
Qed.

Lemma of_int_signless (n : Z) : (0 <= n)%Z -> signless (float64.of_int n).
Proof.
  intro H. destruct n as [|m|m]; [reflexivity| |lia].
  unfold float64.of_int, binary_normalize, binary_round.
  destruct (shl_align _ _ _) as [mz ez]. apply binary_round_aux_signless.
Qed.

Lemma div_signless (x y : spec_float) :
  signless x -> signless y -> signless (float64.div x y).
Proof.
  unfold float64.div.
  destruct x as [sx|sx| |sx mx ex], y as [sy|sy| |sy my ey]; cbn;
    intros Hx Hy; subst; auto.
  destruct (SFdiv_core_binary _ _ _ _ _ _) as [[mz ez] lz].
  apply binary_round_aux_signless.
Qed.

Lemma mul_signless (x y : spec_float) :
  signless x -> signless y -> signless (float64.mul x y).
Proof.
  unfold float64.mul.
  destruct x as [sx|sx| |sx mx ex], y as [sy|sy| |sy my ey]; cbn;
    intros Hx Hy; subst; auto.
  apply binary_round_aux_signless.
Qed.

Lemma signless_not_negative (x : spec_float) :
  signless x -> float64.is_negative x = false.
Proof. destruct x as [s|s| |s m e]; cbn; intro H; subst; reflexivity. Qed.

(** With a final allocation below the initial peak the difference of the
    two [uint64] wraps around: the percentage is computed from
    [final - peak + 2^64] and is never negative. *)
Lemma percentAfter_below_peak now memStats p :
  (0 <= runtime.Alloc memStats < peakBefore p)%Z ->
  (peakBefore p < uint64.modulus)%Z ->
  percentAfter now memStats p
  = float64.mul
      (float64.div
         (float64.of_int
            (runtime.Alloc memStats - peakBefore p + uint64.modulus))
         (float64.of_int (peakBefore p)))
      (float64.of_int 100)
  /\ float64.is_negative (percentAfter now memStats p) = false.
Proof.
  intros H1 H2. rewrite percentAfter_eq.
  destruct (Z.ltb_spec 0 (peakBefore p)); [|lia].
  assert (E : uint64.sub (runtime.Alloc memStats) (peakBefore p)
              = (runtime.Alloc memStats - peakBefore p
                 + uint64.modulus)%Z).
  { unfold uint64.sub.
    rewrite <- (Z.mod_small (_ + uint64.modulus) uint64.modulus) by lia.
    now rewrite <- Z.add_mod_idemp_r, Z.mod_same, Z.add_0_r
      by (unfold uint64.modulus; lia). }
  rewrite E. split; [reflexivity|].
  apply signless_not_negative, mul_signless;
    [apply div_signless|]; apply of_int_signless; lia.
Qed.

(** C2, where the code departs from it. A run that starts with 200 bytes
    allocated and ends with 100: the claimed percentage is
    [(100 - 200) / 200 * 100 = -50], and [CompleteProcess] stores
    [2^63], about 9.2e18, because the difference is taken in [uint64]
    before the conversion to [float64]. *)
Theorem CompleteProcess_percent_below_peak :
  let p :=
    NewProcessing (time.at_ 0) (runtime.Build_MemStats 200 200 4096 0)
      None "run" in
  let memStats := runtime.Build_MemStats 100 300 4096 1 in
  peakBefore p = 200%Z
  /\ percentAfter (time.at_ 1000) memStats p = S754_finite false (2 ^ 52) 11
  /\ float64.is_negative (percentAfter (time.at_ 1000) memStats p) = false
  /\ float64.mul
       (float64.div (float64.of_int (100 - 200)) (float64.of_int 200))
       (float64.of_int 100)
     = float64.of_int (-50)
  /\ float64.is_negative (float64.of_int (-50)) = true.
Proof. cbv zeta. repeat split; vm_compute; reflexivity. Qed.

End MemoryGrowth.

Lemma CompleteProcess_percent_of_growth_witness :
  percentAfter (time.at_ 1000) (runtime.Build_MemStats 300 500 4096 1)
    (Processing.NewProcessing (time.at_ 0)
       (runtime.Build_MemStats 200 200 4096 0) None "run")
  = float64.of_int 50.
Proof.
  rewrite (proj2 (CompleteProcess_percent_of_growth (time.at_ 1000)
                    (runtime.Build_MemStats 300 500 4096 1)
                    (Processing.NewProcessing (time.at_ 0)
                       (runtime.Build_MemStats 200 200 4096 0) None "run")));
    [reflexivity | cbn; lia | cbn; unfold uint64.modulus; lia].
Defined.

(** ** The JSON round trip of a configuration *)

Section RoundTrip.

Lemma ValidString_eq (s : string) :
  utf8.ValidString s = true -> utf8.ToValidUTF8 s = s.
Proof. apply String.eqb_eq. Qed.

Lemma string_round_trip (s old : string) :
  utf8.ValidString s = true ->
  json.unmarshalString (json.marshalString s) old = (s, None).
Proof.
  intro H. unfold json.marshalString, json.unmarshalString.
  now rewrite (ValidString_eq s H).
Qed.

Section Slices.

Context {A : Type} (type : string) (zero : A)
  (elem : json.Value -> A -> A * option error) (m : A -> json.Value)
  (ok : A -> bool).

Hypothesis elem_round_trip :
  forall x, ok x = true -> elem (m x) zero = (x, None).

Lemma elements_round_trip (l : list A) :
  forallb ok l = true ->
  json.unmarshalElements zero elem (map m l) [] = (l, None).
Proof.
  induction l as [|x l IH]; [reflexivity|].
  cbn [forallb map json.unmarshalElements hd tl].
  intro H. apply andb_prop in H as [Hx Hl].
  now rewrite (elem_round_trip x Hx), (IH Hl).
Qed.

Lemma array_round_trip (l : list A) :
  forallb ok l = true ->
  json.unmarshalSlice type zero elem (json.Array (map m l)) []
  = (l, None).
Proof. apply elements_round_trip. Qed.

Lemma slice_round_trip (l : list A) :
  forallb ok l = true ->
  json.unmarshalSlice type zero elem (json.marshalSlice m l) []
  = (l, None).
Proof.
  destruct l as [|x l]; [reflexivity|]. apply array_round_trip.
Qed.

End Slices.

Lemma isEmpty_cases {A} (l : list A) :
  l = [] \/ json.isEmpty l = false.
Proof. destruct l; auto. Qed.

Lemma eqb_empty_cases (s : string) : s = "" \/ String.eqb s "" = false.
Proof. destruct (String.eqb_spec s ""); auto. Qed.

Ltac split_valid H :=
  repeat match type of H with
         | (_ && _)%bool = true =>
             let H' := fresh "Hv" in apply andb_prop in H as [H H']
         end.

Lemma FilterConfig_round_trip (fc : FilterConfig.t) :
  FilterConfig_validUTF8 fc = true ->
  FilterConfig.unmarshal (FilterConfig.marshal fc) FilterConfig.zero
  = (fc, None).
Proof.
  destruct fc as [col val op lop]. unfold FilterConfig_validUTF8.
  cbn [FilterConfig.Column FilterConfig.Value FilterConfig.Operator
       FilterConfig.LogicalOperator].
  intro H. split_valid H. cbn.
  now rewrite !ValidString_eq by assumption.
Qed.

Lemma strings_round_trip (l : list string) :
  validStrings l = true ->
  json.unmarshalElements "" json.unmarshalString
    (map json.marshalString l) []
  = (l, None).
Proof.
  apply elements_round_trip. intros s Hs. now apply string_round_trip.
Qed.

Lemma MergeConfig_round_trip (m : MergeConfig.t) :
  MergeConfig_validUTF8 m = true ->
  MergeConfig.unmarshal (MergeConfig.marshal m) MergeConfig.zero
  = (m, None).
Proof.
  destruct m as [c1 c2 strat dv res]. unfold MergeConfig_validUTF8.
  cbn [MergeConfig.FirstColumn MergeConfig.SecondColumn
       MergeConfig.Strategy MergeConfig.DefaultValues
       MergeConfig.ResultColumnName].
  intro H. split_valid H.
  unfold MergeConfig.marshal, MergeConfig.unmarshal.
  cbn [MergeConfig.FirstColumn MergeConfig.SecondColumn
       MergeConfig.Strategy MergeConfig.DefaultValues
       MergeConfig.ResultColumnName].
  destruct (isEmpty_cases dv) as [->|Hdv];
    destruct (eqb_empty_cases res) as [->|Hres];
    rewrite ?Hdv, ?Hres; cbn -[json.unmarshalElements map];
    rewrite ?strings_round_trip by assumption; cbn;
    now rewrite !ValidString_eq by assumption.
Qed.

Lemma Aggregation_round_trip (a : Aggregation.t) :
  Aggregation_validUTF8 a = true ->
  Aggregation.unmarshal (Aggregation.marshal a) Aggregation.zero
  = (a, None).
Proof.
  destruct a as [col method res]. unfold Aggregation_validUTF8.
  cbn [Aggregation.Column Aggregation.AggregateMethod
       Aggregation.ResultName].
  intro H. split_valid H.
  unfold Aggregation.marshal, Aggregation.unmarshal.
  cbn [Aggregation.Column Aggregation.AggregateMethod
       Aggregation.ResultName].
  destruct (eqb_empty_cases res) as [->|Hres]; rewrite ?Hres; cbn;
    now rewrite !ValidString_eq by assumption.
Qed.

Lemma AggregationConfig_round_trip (ac : AggregationConfig.t) :
  AggregationConfig_validUTF8 ac = true ->
  AggregationConfig.unmarshal (AggregationConfig.marshal ac)
    AggregationConfig.zero
  = (ac, None).
Proof.
  destruct ac as [gs ags]. unfold AggregationConfig_validUTF8.
  cbn [AggregationConfig.GroupingColumns AggregationConfig.Aggregations].
  intro H. split_valid H.
  unfold AggregationConfig.marshal, AggregationConfig.unmarshal.
  cbn -[json.unmarshalSlice json.marshalSlice Aggregation.unmarshal
        Aggregation.marshal].
  rewrite (slice_round_trip "[]string" "" json.unmarshalString
             json.marshalString utf8.ValidString
             (fun s => string_round_trip s "") gs H).
  cbn -[json.unmarshalSlice json.marshalSlice Aggregation.unmarshal
        Aggregation.marshal].
  rewrite (slice_round_trip "[]entities.Aggregation" Aggregation.zero
             Aggregation.unmarshal Aggregation.marshal
             Aggregation_validUTF8 Aggregation_round_trip ags Hv).
  reflexivity.
Qed.

Lemma Config_unmarshal_marshal (c : Config.t) :
  Config_validUTF8 c = true ->
  Config.unmarshal (Config.marshal c) Config.zero = (c, None).
Proof.
  destruct c as [name desc creator type source fs ms ags out].
  unfold Config_validUTF8.
  cbn [Config.Name Config.Description Config.Creator Config.Type_
       Config.Source Config.Filters Config.MergeColumns
       Config.Aggregations Config.OutputFormat].
  intro H. split_valid H.
  pose proof (array_round_trip "[]entities.FilterConfig"
                FilterConfig.zero FilterConfig.unmarshal
                FilterConfig.marshal FilterConfig_validUTF8
                FilterConfig_round_trip fs Hv2) as Hfs.
  pose proof (array_round_trip "[]entities.MergeConfig"
                MergeConfig.zero MergeConfig.unmarshal
                MergeConfig.marshal MergeConfig_validUTF8
                MergeConfig_round_trip ms Hv1) as Hms.
  pose proof (array_round_trip "[]entities.AggregationConfig"
                AggregationConfig.zero AggregationConfig.unmarshal
                AggregationConfig.marshal AggregationConfig_validUTF8
                AggregationConfig_round_trip ags Hv0) as Hags.
  unfold Config.marshal, Config.unmarshal.
  cbn [Config.Name Config.Description Config.Creator Config.Type_
       Config.Source Config.Filters Config.MergeColumns
       Config.Aggregations Config.OutputFormat].
  destruct (isEmpty_cases fs) as [->|Ef];
    destruct (isEmpty_cases ms) as [->|Em];
    destruct (isEmpty_cases ags) as [->|Ea];
    rewrite ?Ef, ?Em, ?Ea;
    cbn -[json.unmarshalSlice map FilterConfig.unmarshal
          MergeConfig.unmarshal AggregationConfig.unmarshal];
    rewrite ?Hfs;
    cbn -[json.unmarshalSlice map FilterConfig.unmarshal
          MergeConfig.unmarshal AggregationConfig.unmarshal];
    rewrite ?Hms;
    cbn -[json.unmarshalSlice map FilterConfig.unmarshal
          MergeConfig.unmarshal AggregationConfig.unmarshal];
    rewrite ?Hags; cbn;
    now rewrite !ValidString_eq by assumption.
Qed.

(** A configuration that passed [Validate] passes it again unchanged,
    whatever the entropy source: the name is there already. *)
Lemma Validate_idempotent (rand_Read rand_Read' : nat -> ascii)
    (c0 c : Config.t) :
  Config.Validate rand_Read c0 = (c, None) ->
  Config.Validate rand_Read' c = (c, None).
Proof.
  rewrite !Validate_eq.
  destruct (String.eqb_spec (Config.Type_ c0) "") as [|Ht];
    [discriminate|].
  destruct (String.eqb_spec (Config.Source c0) "") as [|Hs];
    [discriminate|].
  intro H. injection H as Hc Hn.
  destruct (defaulted_fields rand_Read c0)
    as (Hname & _ & _ & Htype & Hsrc & Hf & Hm & Ha & Hout).
  rewrite Hc in *.
  rewrite Htype, Hsrc, (eqb_empty_false _ Ht), (eqb_empty_false _ Hs).
  assert (Hname' : Config.Name c <> "")
    by (rewrite Hname; apply named_nonempty).
  assert (Hout' : Config.OutputFormat c <> "").
  { rewrite Hout. destruct (String.eqb_spec (Config.OutputFormat c0) "");
      [discriminate | assumption]. }
  f_equal.
  - unfold defaulted, named. rewrite (eqb_empty_false _ Hname').
    now rewrite (eqb_empty_false _ Hout').
  - unfold nested in *. now rewrite Hf, Hm, Ha.
Qed.

(** C3, as the code has it. A configuration that passed [Validate] and
    whose strings are valid UTF-8 is written by [ToJSON] without error,
    and [FromJSON] of that document into a new [Config] succeeds and
    gives back the configuration, every field as it was; the validation
    inside [FromJSON] changes nothing. *)
Theorem Config_JSON_round_trip (rand_Read rand_Read' : nat -> ascii)
    (c0 c : Config.t) :
  Config.Validate rand_Read c0 = (c, None) ->
  Config_validUTF8 c = true ->
  snd (Config.ToJSON c) = None
  /\ Config.FromJSON rand_Read' (fst (Config.ToJSON c)) Config.zero
     = (c, None)
  /\ Config.unmarshal (fst (Config.ToJSON c)) Config.zero = (c, None)
  /\ Config.Validate rand_Read' c = (c, None).
Proof.
  intros Hval Hutf.
  pose proof (Validate_idempotent rand_Read rand_Read' c0 c Hval) as Hi.
  pose proof (Config_unmarshal_marshal c Hutf) as Hrt.
  unfold Config.FromJSON, Config.ToJSON. cbn [fst snd].
  rewrite Hrt. auto.
Qed.

End RoundTrip.

Lemma Config_JSON_round_trip_witness :
  Config.FromJSON zeroes (fst (Config.ToJSON sampleValidated)) Config.zero
  = (sampleValidated, None).
Proof.
  apply (Config_JSON_round_trip zeroes zeroes sampleConfig sampleValidated);
    reflexivity.
Defined.

(** C3 as the specification words it fails on a string that is not valid
    UTF-8: [Validate] accepts [shiftJIS] as it is, and after [ToJSON] and
    [FromJSON] its source is EF BF BD 66 2E 63 73 76, the byte 83 having
    become U+FFFD. *)
Lemma Config_JSON_round_trip_changes_source :
  Config.Validate zeroes shiftJIS = (shiftJIS, None)
  /\ snd (Config.FromJSON zeroes (fst (Config.ToJSON shiftJIS)) Config.zero)
     = None
  /\ Config.Source
       (fst (Config.FromJSON zeroes (fst (Config.ToJSON shiftJIS))
               Config.zero))
     = String "239" (String "191" (String "189" "f.csv"))
  /\ fst (Config.FromJSON zeroes (fst (Config.ToJSON shiftJIS)) Config.zero)
     <> shiftJIS.
Proof.
  repeat split; try reflexivity. vm_compute. discriminate.
Qed.

(** * Further properties of the code *)

(** ** The error taxonomy *)

(** An error is recognised as a kind exactly as its chain of causes says:
    a plain [fmt.Errorf] error is of no kind; wrapping with [%w] changes
    nothing; an error of one kind is of that kind whatever its cause, and
    of another kind exactly when its cause is. *)
Theorem error_kinds_follow_causes :
  (forall s,
      IsConfigurationError (Some (Errorf s)) = false
      /\ IsAuthenticationError (Some (Errorf s)) = false
      /\ IsDataProcessError (Some (Errorf s)) = false)
  /\ (forall prefix err,
         IsConfigurationError (Some (Errorf_w prefix err))
         = IsConfigurationError (Some err)
         /\ IsAuthenticationError (Some (Errorf_w prefix err))
            = IsAuthenticationError (Some err)
         /\ IsDataProcessError (Some (Errorf_w prefix err))
            = IsDataProcessError (Some err))
  /\ (forall c : ConfigurationError.t error,
         IsConfigurationError (Some (configurationError c)) = true
         /\ IsAuthenticationError (Some (configurationError c))
            = IsAuthenticationError (ConfigurationError.Unwrap c)
         /\ IsDataProcessError (Some (configurationError c))
            = IsDataProcessError (ConfigurationError.Unwrap c))
  /\ (forall a : AuthenticationError.t error,
         IsAuthenticationError (Some (authenticationError a)) = true
         /\ IsConfigurationError (Some (authenticationError a))
            = IsConfigurationError (AuthenticationError.Unwrap a)
         /\ IsDataProcessError (Some (authenticationError a))
            = IsDataProcessError (AuthenticationError.Unwrap a))
  /\ (forall d : DataProcessError.t error,
         IsDataProcessError (Some (dataProcessError d)) = true
         /\ IsConfigurationError (Some (dataProcessError d))
            = IsConfigurationError (DataProcessError.Unwrap d)
         /\ IsAuthenticationError (Some (dataProcessError d))
            = IsAuthenticationError (DataProcessError.Unwrap d)).
Proof.
  repeat split; try reflexivity.
  - destruct c as [f m [e|]]; reflexivity.
  - destruct c as [f m [e|]]; reflexivity.
  - destruct a as [m [e|] r x]; reflexivity.
  - destruct a as [m [e|] r x]; reflexivity.
  - destruct d as [s m [e|] r x]; reflexivity.
  - destruct d as [s m [e|] r x]; reflexivity.
Qed.

(** [errors.As] is the loop over [Unwrap]: the error itself when it has
    the target's type, and otherwise what the loop finds from its cause. *)
Lemma As_follows_Unwrap {T : Type} (target : error -> option T)
    (err : error) :
  As target err
  = match target err with
    | Some x => Some x
    | None =>
        match errors.Unwrap err with
        | Some cause => As target cause
        | None => None
        end
    end.
Proof.
  destruct err as [s|msg e|c|a|d]; cbn [As errors.Unwrap];
    try reflexivity.
Qed.

Section RetryBudget.

Import AuthenticationError.

Lemma iter_Increment_from {E} (message : string) (cause : option E)
    (attempt maxRetries : Z) (k : nat) :
  (- 2 ^ 63 <= attempt)%Z -> (attempt + Z.of_nat k < 2 ^ 63)%Z ->
  Nat.iter k IncrementRetryAttempt (Build message cause attempt maxRetries)
  = Build message cause (attempt + Z.of_nat k) maxRetries.
Proof.
  intro Ha. induction k as [|k IH]; intro Hk.
  - cbn. now rewrite Z.add_0_r.
  - change (Nat.iter (S k) IncrementRetryAttempt ?x)
      with (IncrementRetryAttempt (Nat.iter k IncrementRetryAttempt x)).
    rewrite IH by lia. unfold IncrementRetryAttempt.
    cbn [Message Cause RetryAttempt MaxRetries].
    rewrite wrap_int_small by lia. f_equal. lia.
Qed.

(** An error made by [NewAuthenticationErrorWithMaxRetries] is, after [k]
    increments (fewer than 2^63), retryable exactly when [k] is below the
    given maximum, so with a maximum of zero or less it is never
    retryable; the increments keep message, cause and maximum. At the
    largest [int] the counter wraps around to the smallest, and the error
    is retryable again. *)
Theorem retry_budget_of_max_retries (message : string)
    (cause : option error) (maxRetries : Z) :
  (forall k : nat,
      (Z.of_nat k < 2 ^ 63)%Z ->
      let e := Nat.iter k IncrementRetryAttempt
                 (NewAuthenticationErrorWithMaxRetries message cause
                    maxRetries) in
      RetryAttempt e = Z.of_nat k
      /\ MaxRetries e = maxRetries
      /\ Message e = message
      /\ Cause e = cause
      /\ IsRetryable e = (Z.of_nat k <? maxRetries)%Z)
  /\ (forall e : t error,
         RetryAttempt e = (2 ^ 63 - 1)%Z ->
         (- 2 ^ 63 < MaxRetries e)%Z ->
         RetryAttempt (IncrementRetryAttempt e) = (- 2 ^ 63)%Z
         /\ IsRetryable (IncrementRetryAttempt e) = true).
Proof.
  split.
  - intros k Hk. cbv zeta. unfold NewAuthenticationErrorWithMaxRetries.
    rewrite iter_Increment_from by lia. cbn. auto.
  - intros e He Hm. unfold IsRetryable, IncrementRetryAttempt.
    cbn [RetryAttempt MaxRetries]. rewrite He.
    assert (W : wrap_int (2 ^ 63 - 1 + 1) = (- 2 ^ 63)%Z) by reflexivity.
    rewrite W. split; [reflexivity | now apply Z.ltb_lt].
Qed.

End RetryBudget.

Lemma retry_budget_of_max_retries_witness :
  AuthenticationError.IsRetryable
    (Nat.iter 5 AuthenticationError.IncrementRetryAttempt
       (AuthenticationError.NewAuthenticationErrorWithMaxRetries
          "token expired" (@None error) 5))
  = false
  /\ AuthenticationError.IsRetryable
       (AuthenticationError.IncrementRetryAttempt
          (AuthenticationError.Build "token expired" (@None error)
             (2 ^ 63 - 1) 3))
     = true.
Proof.
  split.
  - destruct (proj1 (retry_budget_of_max_retries "token expired" None 5) 5)
      as (_ & _ & _ & _ & H); [cbn; lia | exact H].
  - apply (proj2 (retry_budget_of_max_retries "" None 0)
             (AuthenticationError.Build "token expired" None
                (2 ^ 63 - 1) 3)); [reflexivity | cbn; lia].
Defined.

(** ** Validation of the nested entries, in full *)

Lemma joined_nonempty (s t : string) : String.eqb (s ++ "_" ++ t) "" = false.
Proof. destruct s; reflexivity. Qed.

Lemma if_eqb_empty_nonempty (s d : string) :
  String.eqb d "" = false ->
  String.eqb (if String.eqb s "" then d else s) "" = false.
Proof. intro H. destruct (String.eqb s "") eqn:E; assumption. Qed.

(** What [MergeConfig.Validate] returns, whatever the directive. *)
Lemma MergeConfig_Validate_eq (m : MergeConfig.t) :
  MergeConfig.Validate m
  = if String.eqb (MergeConfig.FirstColumn m) "" then
      (m, Some (Errorf "firstColumn is required"))
    else if String.eqb (MergeConfig.SecondColumn m) "" then
      (m, Some (Errorf "secondColumn is required"))
    else if slices.Contains MergeConfig.validateStrategies
              (MergeConfig.Strategy (mergeDefaults m)) then
      (mergeDefaults m, None)
    else
      (mergeDefaults m,
       Some (Errorf ("invalid strategy '"
                     ++ MergeConfig.Strategy (mergeDefaults m)
                     ++ "', strategy must be one of "
                     ++ fmt.v MergeConfig.validateStrategies))).
Proof.
  destruct m as [c1 c2 strat dv res].
  unfold MergeConfig.Validate, mergeDefaults. cbn -[slices.Contains].
  destruct (String.eqb c1 ""); [reflexivity|].
  destruct (String.eqb c2 ""); [reflexivity|].
  destruct (String.eqb strat ""); cbn -[slices.Contains];
    destruct (String.eqb res "");
    cbn -[slices.Contains]; try reflexivity;
    match goal with
    | |- context [slices.Contains ?l ?x] => destruct (slices.Contains l x)
    end; reflexivity.
Qed.

(** [MergeConfig.Validate] passes exactly when both columns are non-empty
    and the strategy is blank or one of concat, sum, first, second. *)
Theorem MergeConfig_Validate_passes_exactly (m : MergeConfig.t) :
  snd (MergeConfig.Validate m) = None <->
  MergeConfig.FirstColumn m <> ""
  /\ MergeConfig.SecondColumn m <> ""
  /\ (MergeConfig.Strategy m = ""
      \/ In (MergeConfig.Strategy m) ["concat"; "sum"; "first"; "second"]).
Proof.
  rewrite MergeConfig_Validate_eq.
  destruct (String.eqb_spec (MergeConfig.FirstColumn m) "") as [H1|H1];
    [cbn; split; [discriminate | tauto]|].
  destruct (String.eqb_spec (MergeConfig.SecondColumn m) "") as [H2|H2];
    [cbn; split; [discriminate | tauto]|].
  unfold mergeDefaults; cbn [MergeConfig.Strategy].
  destruct (String.eqb_spec (MergeConfig.Strategy m) "") as [Hs|Hs].
  - cbn. tauto.
  - destruct (slices.Contains MergeConfig.validateStrategies
                (MergeConfig.Strategy m)) eqn:E; cbn [snd].
    + apply Contains_In in E. tauto.
    + apply Contains_not_In in E. split; [discriminate|].
      intros (_ & _ & [H|H]); contradiction.
Qed.

(** What [MergeConfig.Validate] leaves in the directive. With a required
    column missing the directive is untouched. Otherwise both defaults
    are written before the strategy is checked: a directive that fails on
    its strategy has its blank [resultColumnName] filled all the same,
    and a strategy and a result name that were given are kept. *)
Theorem MergeConfig_Validate_writes (m : MergeConfig.t) :
  (MergeConfig.FirstColumn m = "" \/ MergeConfig.SecondColumn m = "" ->
   fst (MergeConfig.Validate m) = m
   /\ exists err, snd (MergeConfig.Validate m) = Some err)
  /\ (MergeConfig.FirstColumn m <> "" ->
      MergeConfig.SecondColumn m <> "" ->
      fst (MergeConfig.Validate m) = mergeDefaults m).
Proof.
  rewrite MergeConfig_Validate_eq. split.
  - intros [H|H]; rewrite H; cbn.
    + eauto.
    + destruct (String.eqb (MergeConfig.FirstColumn m) ""); cbn; eauto.
  - intros H1 H2.
    rewrite (eqb_empty_false _ H1), (eqb_empty_false _ H2).
    now destruct (slices.Contains _ _).
Qed.

Lemma MergeConfig_Validate_writes_witness :
  MergeConfig.Validate (MergeConfig.Build "a" "b" "average" [] "")
  = (MergeConfig.Build "a" "b" "average" [] "a_b",
     Some (errorString
             ("invalid strategy 'average', "
              ++ "strategy must be one of [concat sum first second]")))
  /\ fst (MergeConfig.Validate (MergeConfig.Build "" "b" "" [] ""))
     = MergeConfig.Build "" "b" "" [] "".
Proof.
  split; [reflexivity|].
  apply (proj1 (MergeConfig_Validate_writes
                  (MergeConfig.Build "" "b" "" [] ""))).
  left. reflexivity.
Defined.

Lemma mergeDefaults_idempotent (m : MergeConfig.t) :
  mergeDefaults (mergeDefaults m) = mergeDefaults m.
Proof.
  destruct m as [c1 c2 strat dv res]. unfold mergeDefaults.
  cbn [MergeConfig.FirstColumn MergeConfig.SecondColumn
       MergeConfig.Strategy MergeConfig.DefaultValues
       MergeConfig.ResultColumnName].
  rewrite (if_eqb_empty_nonempty strat "concat" eq_refl).
  now rewrite (if_eqb_empty_nonempty res (c1 ++ "_" ++ c2)
                 (joined_nonempty c1 c2)).
Qed.

(** Validating a merge directive a second time changes nothing and gives
    the same result, whether the first validation passed or failed. *)
Theorem MergeConfig_Validate_idempotent (m : MergeConfig.t) :
  MergeConfig.Validate (fst (MergeConfig.Validate m))
  = MergeConfig.Validate m.
Proof.
  rewrite (MergeConfig_Validate_eq m).
  destruct (String.eqb (MergeConfig.FirstColumn m) "") eqn:E1;
    [cbn [fst]; now rewrite MergeConfig_Validate_eq, E1|].
  destruct (String.eqb (MergeConfig.SecondColumn m) "") eqn:E2;
    [cbn [fst]; now rewrite MergeConfig_Validate_eq, E1, E2|].
  assert (H : MergeConfig.Validate (mergeDefaults m)
              = if slices.Contains MergeConfig.validateStrategies
                     (MergeConfig.Strategy (mergeDefaults m))
                then (mergeDefaults m, None)
                else (mergeDefaults m,
                      Some (Errorf ("invalid strategy '"
                                    ++ MergeConfig.Strategy (mergeDefaults m)
                                    ++ "', strategy must be one of "
                                    ++ fmt.v MergeConfig.validateStrategies)))).
  { rewrite MergeConfig_Validate_eq, mergeDefaults_idempotent.
    change (MergeConfig.FirstColumn (mergeDefaults m))
      with (MergeConfig.FirstColumn m).
    change (MergeConfig.SecondColumn (mergeDefaults m))
      with (MergeConfig.SecondColumn m).
    now rewrite E1, E2. }
  destruct (slices.Contains _ _); cbn [fst]; now rewrite H.
Qed.

(** What [Aggregation.Validate] returns, whatever the aggregation. *)
Lemma Aggregation_Validate_eq (a : Aggregation.t) :
  Aggregation.Validate a
  = if String.eqb (Aggregation.Column a) "" then
      (a, Some (Errorf "column is required"))
    else if String.eqb (Aggregation.AggregateMethod a) "" then
      (a, Some (Errorf "aggregateMethod is required"))
    else if slices.Contains Aggregation.validateAggregateMethods
              (Aggregation.AggregateMethod a) then
      (aggregationDefaults a, None)
    else
      (aggregationDefaults a,
       Some (Errorf ("invalid aggregateMethod '"
                     ++ Aggregation.AggregateMethod a
                     ++ "', aggregateMethod must be one of "
                     ++ fmt.v Aggregation.validateAggregateMethods))).
Proof.
  destruct a as [col method res].
  unfold Aggregation.Validate, aggregationDefaults.
  cbn -[slices.Contains].
  destruct (String.eqb col ""); [reflexivity|].
  destruct (String.eqb method ""); [reflexivity|].
  destruct (String.eqb res ""); cbn -[slices.Contains];
    match goal with
    | |- context [slices.Contains ?l ?x] => destruct (slices.Contains l x)
    end; reflexivity.
Qed.

(** [Aggregation.Validate] passes exactly when the column is non-empty
    and the method is one of sum, avg, min, max, count, median; it then
    leaves the aggregation with its result name, the given one or else
    [column + "_" + aggregateMethod]. An aggregation with a blank column
    or method is left untouched, and validating a second time changes
    nothing. *)
Theorem Aggregation_Validate_passes_exactly (a : Aggregation.t) :
  (snd (Aggregation.Validate a) = None <->
   Aggregation.Column a <> ""
   /\ In (Aggregation.AggregateMethod a)
        ["sum"; "avg"; "min"; "max"; "count"; "median"])
  /\ fst (Aggregation.Validate a)
     = (if String.eqb (Aggregation.Column a) ""
           || String.eqb (Aggregation.AggregateMethod a) ""
        then a else aggregationDefaults a)
  /\ Aggregation.Validate (fst (Aggregation.Validate a))
     = Aggregation.Validate a.
Proof.
  rewrite (Aggregation_Validate_eq a).
  destruct (String.eqb_spec (Aggregation.Column a) "") as [H1|H1].
  { cbn [fst snd orb]. rewrite Aggregation_Validate_eq, H1. cbn.
    repeat split; try discriminate; tauto. }
  destruct (String.eqb_spec (Aggregation.AggregateMethod a) "") as [H2|H2].
  { cbn [fst snd orb]. rewrite Aggregation_Validate_eq, H2.
    rewrite (eqb_empty_false _ H1). cbn.
    repeat split; try discriminate.
    intros (_ & H). cbn in H.
    repeat destruct H as [H|H]; try discriminate; contradiction. }
  cbn [orb].
  assert (Hd : Aggregation.Validate (aggregationDefaults a)
               = if slices.Contains Aggregation.validateAggregateMethods
                      (Aggregation.AggregateMethod a)
                 then (aggregationDefaults a, None)
                 else (aggregationDefaults a,
                       Some (Errorf ("invalid aggregateMethod '"
                                     ++ Aggregation.AggregateMethod a
                                     ++ "', aggregateMethod must be one of "
                                     ++ fmt.v
                                          Aggregation.validateAggregateMethods)))).
  { rewrite Aggregation_Validate_eq.
    destruct a as [col method res]. unfold aggregationDefaults.
    cbn [Aggregation.Column Aggregation.AggregateMethod
         Aggregation.ResultName] in *.
    rewrite (eqb_empty_false _ H1), (eqb_empty_false _ H2).
    now rewrite (if_eqb_empty_nonempty res (col ++ "_" ++ method)
                   (joined_nonempty col method)). }
  destruct (slices.Contains Aggregation.validateAggregateMethods
              (Aggregation.AggregateMethod a)) eqn:E; cbn [fst snd];
    rewrite Hd.
  - apply Contains_In in E. repeat split; auto.
  - apply Contains_not_In in E.
    repeat split; try discriminate. intros (_ & H). contradiction.
Qed.

(** [AggregationConfig.Validate] passes exactly when there is a grouping
    column, there is an aggregation, and every aggregation passes its own
    [Validate]. It never writes to the directive: the result names that
    the aggregations' [Validate] fills in go to copies. *)
Theorem AggregationConfig_Validate_passes_exactly
    (ac : AggregationConfig.t) :
  (snd (AggregationConfig.Validate ac) = None <->
   AggregationConfig.GroupingColumns ac <> []
   /\ AggregationConfig.Aggregations ac <> []
   /\ Forall (valid Aggregation.Validate)
        (AggregationConfig.Aggregations ac))
  /\ fst (AggregationConfig.Validate ac) = ac.
Proof.
  unfold AggregationConfig.Validate.
  destruct ac as [gs ags]; cbn [AggregationConfig.GroupingColumns
                                AggregationConfig.Aggregations].
  destruct gs as [|g gs]; [cbn; split; [split|]; try easy; tauto|].
  destruct ags as [|a ags]; [cbn; split; [split|]; try easy; tauto|].
  cbn [length Nat.eqb].
  destruct (rangeValidate "aggregation" Aggregation.Validate 0 (a :: ags))
    as [err|] eqn:E; cbn [fst snd]; (split; [|reflexivity]).
  - split; [discriminate|]. intros (_ & _ & H).
    apply (rangeValidate_None "aggregation" _ 0) in H. congruence.
  - apply rangeValidate_None in E.
    split; [|reflexivity]. intros _. repeat split; try discriminate.
    exact E.
Qed.

Section ConfigValidateFull.

Variable rand_Read : nat -> ascii.

(** [Config.Validate] passes exactly when type and source are non-blank
    and every filter clause, merge directive and aggregation directive
    passes its own [Validate]. *)
Theorem Config_Validate_passes_exactly (c : Config.t) :
  snd (Config.Validate rand_Read c) = None <->
  Config.Type_ c <> ""
  /\ Config.Source c <> ""
  /\ Forall (valid FilterConfig.Validate) (Config.Filters c)
  /\ Forall (valid MergeConfig.Validate) (Config.MergeColumns c)
  /\ Forall (valid AggregationConfig.Validate) (Config.Aggregations c).
Proof.
  rewrite Validate_eq.
  destruct (String.eqb_spec (Config.Type_ c) "") as [Ht|Ht];
    [cbn; split; [discriminate | tauto]|].
  destruct (String.eqb_spec (Config.Source c) "") as [Hs|Hs];
    [cbn; split; [discriminate | tauto]|].
  cbn [snd]. unfold nested.
  rewrite <- (rangeValidate_None "filter" FilterConfig.Validate 0).
  rewrite <- (rangeValidate_None "mergeColumn" MergeConfig.Validate 0).
  rewrite <- (rangeValidate_None "aggregation"
                AggregationConfig.Validate 0).
  destruct (rangeValidate "filter" _ 0 _);
    [split; [discriminate | intros (_ & _ & H & _); discriminate]|].
  destruct (rangeValidate "mergeColumn" _ 0 _);
    [split; [discriminate | intros (_ & _ & _ & H & _); discriminate]|].
  tauto.
Qed.

(** The order of the checks in [Config.Validate] and what each path
    leaves behind. The name is filled in whatever the outcome: it is the
    given one or else "UntitledConfig_" and the random digits. A blank
    type is reported before a blank source, and in both cases the output
    format is left as it was. Once type and source are there the output
    format is the given one or else "csv", also when a nested entry then
    fails. Nothing else is written, so the configuration left behind is
    known field by field on every path. *)
Theorem Config_Validate_check_order (c : Config.t) :
  let name' :=
    if String.eqb (Config.Name c) ""
    then "UntitledConfig_" ++ utils.RandomString rand_Read 10
    else Config.Name c in
  let format' :=
    if String.eqb (Config.OutputFormat c) "" then "csv"
    else Config.OutputFormat c in
  let c' := fst (Config.Validate rand_Read c) in
  Config.Name c' = name'
  /\ Config.Name c' <> ""
  /\ c' = Config.Build name' (Config.Description c) (Config.Creator c)
            (Config.Type_ c) (Config.Source c) (Config.Filters c)
            (Config.MergeColumns c) (Config.Aggregations c)
            (if String.eqb (Config.Type_ c) ""
                || String.eqb (Config.Source c) ""
             then Config.OutputFormat c else format')
  /\ (Config.Type_ c = "" ->
      snd (Config.Validate rand_Read c)
      = Some (Errorf
                "type is required, valid values are: csv, googlesheets")
      /\ Config.OutputFormat c' = Config.OutputFormat c)
  /\ (Config.Type_ c <> "" -> Config.Source c = "" ->
      snd (Config.Validate rand_Read c) = Some (Errorf "source is required")
      /\ Config.OutputFormat c' = Config.OutputFormat c)
  /\ (Config.Type_ c <> "" -> Config.Source c <> "" ->
      Config.OutputFormat c' = format'
      /\ Config.OutputFormat c' <> "").
Proof.
  cbv zeta.
  assert (Hrec : fst (Config.Validate rand_Read c)
                 = Config.Build
                     (if String.eqb (Config.Name c) ""
                      then "UntitledConfig_"
                           ++ utils.RandomString rand_Read 10
                      else Config.Name c)
                     (Config.Description c) (Config.Creator c)
                     (Config.Type_ c) (Config.Source c) (Config.Filters c)
                     (Config.MergeColumns c) (Config.Aggregations c)
                     (if String.eqb (Config.Type_ c) ""
                         || String.eqb (Config.Source c) ""
                      then Config.OutputFormat c
                      else if String.eqb (Config.OutputFormat c) ""
                           then "csv" else Config.OutputFormat c)).
  { rewrite Validate_eq. unfold defaulted, named.
    destruct c as [name desc creator type source fs ms ags out]; cbn.
    destruct (String.eqb name ""); cbn; destruct (String.eqb type ""); cbn;
      try reflexivity; destruct (String.eqb source ""); cbn;
      try reflexivity; destruct (String.eqb out ""); reflexivity. }
  assert (Hname : (if String.eqb (Config.Name c) ""
                   then "UntitledConfig_"
                        ++ utils.RandomString rand_Read 10
                   else Config.Name c) <> "").
  { destruct (String.eqb_spec (Config.Name c) "");
      [discriminate | assumption]. }
  assert (Hformat : (if String.eqb (Config.OutputFormat c) "" then "csv"
                     else Config.OutputFormat c) <> "").
  { destruct (String.eqb_spec (Config.OutputFormat c) "");
      [discriminate | assumption]. }
  rewrite Hrec. cbn [Config.Name Config.OutputFormat].
  split; [reflexivity|]. split; [exact Hname|]. split; [reflexivity|].
  rewrite Validate_eq. split; [|split].
  - intro Ht. rewrite Ht. split; reflexivity.
  - intros Ht Hs. rewrite (eqb_empty_false _ Ht), Hs. split; reflexivity.
  - intros Ht Hs.
    rewrite (eqb_empty_false _ Ht), (eqb_empty_false _ Hs).
    split; [reflexivity | exact Hformat].
Qed.

(** Validating a configuration a second time changes nothing and gives
    the same result, whether the first validation passed or failed, and
    whatever the second entropy source: the name is there already. *)
Theorem Config_Validate_idempotent (rand_Read' : nat -> ascii)
    (c : Config.t) :
  Config.Validate rand_Read' (fst (Config.Validate rand_Read c))
  = Config.Validate rand_Read c.
Proof.
  assert (Hnamed : named rand_Read' (named rand_Read c) = named rand_Read c).
  { unfold named at 1.
    now rewrite (eqb_empty_false _ (named_nonempty rand_Read c)). }
  destruct (named_fields rand_Read c)
    as (_ & _ & _ & Nt & Ns & _ & _ & _ & _).
  destruct (defaulted_fields rand_Read c)
    as (Dn & _ & _ & Dt & Ds & Df & Dm & Da & Do).
  rewrite (Validate_eq rand_Read c).
  destruct (String.eqb (Config.Type_ c) "") eqn:Et.
  { cbn [fst]. now rewrite Validate_eq, Nt, Et, Hnamed. }
  destruct (String.eqb (Config.Source c) "") eqn:Es.
  { cbn [fst]. now rewrite Validate_eq, Nt, Ns, Et, Es, Hnamed. }
  cbn [fst]. rewrite Validate_eq, Dt, Ds, Et, Es. f_equal.
  - assert (Hnd : named rand_Read' (defaulted rand_Read c)
                  = defaulted rand_Read c).
    { unfold named at 1.
      now rewrite Dn, (eqb_empty_false _ (named_nonempty rand_Read c)). }
    assert (Ho : String.eqb (Config.OutputFormat (defaulted rand_Read c))
                   "" = false).
    { rewrite Do.
      now destruct (String.eqb (Config.OutputFormat c) "") eqn:Eo. }
    unfold defaulted at 1. now rewrite Hnd, Ho.
  - unfold nested. now rewrite Df, Dm, Da.
Qed.

(** An invalid aggregation inside an aggregation directive is reported
    through two wrappers, the directive's index and then the
    aggregation's: the text reads "aggregation[i]: aggregation[j]: ..."
    and unwrapping twice gives the aggregation's own error. *)
Theorem Config_Validate_nested_aggregation (c : Config.t)
    (pre : list AggregationConfig.t) (ac : AggregationConfig.t)
    (post : list AggregationConfig.t) (j : nat) (e : error) :
  Config.Type_ c <> "" -> Config.Source c <> "" ->
  Forall (valid FilterConfig.Validate) (Config.Filters c) ->
  Forall (valid MergeConfig.Validate) (Config.MergeColumns c) ->
  Config.Aggregations c = (pre ++ ac :: post)%list ->
  Forall (valid AggregationConfig.Validate) pre ->
  AggregationConfig.GroupingColumns ac <> [] ->
  first_invalid Aggregation.Validate (AggregationConfig.Aggregations ac)
    j e ->
  exists err,
    snd (Config.Validate rand_Read c) = Some err
    /\ errors.Error err
       = ("aggregation" ++ "[" ++ fmt.d (length pre) ++ "]: ")
         ++ ("aggregation" ++ "[" ++ fmt.d j ++ "]: ")
         ++ errors.Error e
    /\ match errors.Unwrap err with
       | Some inner => errors.Unwrap inner = Some e
       | None => False
       end.
Proof.
  intros Ht Hs Hf Hm Ha Hpre Hg Hj.
  assert (Hac : snd (AggregationConfig.Validate ac)
                = Some (Errorf_w ("aggregation" ++ "[" ++ fmt.d j ++ "]: ")
                          e)).
  { unfold AggregationConfig.Validate.
    rewrite (rangeValidate_first_invalid "aggregation" _ _ _ _ Hj).
    destruct Hj as (p & x & q & Hx & _).
    destruct (AggregationConfig.GroupingColumns ac); [contradiction|].
    rewrite Hx. now destruct p. }
  rewrite Validate_eq, (eqb_empty_false _ Ht), (eqb_empty_false _ Hs).
  cbn [snd]. unfold nested.
  apply (rangeValidate_None "filter" _ 0) in Hf.
  apply (rangeValidate_None "mergeColumn" _ 0) in Hm.
  rewrite Hf, Hm, Ha.
  rewrite (rangeValidate_first "aggregation" AggregationConfig.Validate 0
             pre ac post _ Hpre Hac).
  eexists. split; [reflexivity|]. split; reflexivity.
Qed.

End ConfigValidateFull.

Lemma Config_Validate_check_order_witness :
  Config.Validate zeroes
    (Config.Build "" "" "" "" "" [] [MergeConfig.Build "" "" "" [] ""] [] "")
  = (Config.Build "UntitledConfig_00000000000000000000" "" "" "" "" []
       [MergeConfig.Build "" "" "" [] ""] [] "",
     Some (errorString
             "type is required, valid values are: csv, googlesheets"))
  /\ Config.OutputFormat
       (fst (Config.Validate zeroes
               (Config.Build "report" "" "" "csv" "data.csv" []
                  [MergeConfig.Build "" "" "" [] ""] [] "")))
     = "csv".
Proof.
  split; [reflexivity|].
  destruct (Config_Validate_check_order zeroes
              (Config.Build "report" "" "" "csv" "data.csv" []
                 [MergeConfig.Build "" "" "" [] ""] [] ""))
    as (_ & _ & _ & _ & _ & H).
  apply H; discriminate.
Defined.

Lemma Config_Validate_nested_aggregation_witness :
  exists err,
    snd (Config.Validate zeroes
           (Config.Build "report" "" "" "csv" "data.csv" [] []
              [AggregationConfig.Build ["region"]
                 [Aggregation.Build "price" "sum" ""];
               AggregationConfig.Build ["region"]
                 [Aggregation.Build "price" "avg" "";
                  Aggregation.Build "price" "mode" ""]]
              "csv"))
    = Some err
    /\ errors.Error err
       = ("aggregation[1]: aggregation[1]: invalid aggregateMethod 'mode', "
          ++ "aggregateMethod must be one of "
          ++ "[sum avg min max count median]").
Proof.
  destruct (Config_Validate_nested_aggregation zeroes
              (Config.Build "report" "" "" "csv" "data.csv" [] []
                 [AggregationConfig.Build ["region"]
                    [Aggregation.Build "price" "sum" ""];
                  AggregationConfig.Build ["region"]
                    [Aggregation.Build "price" "avg" "";
                     Aggregation.Build "price" "mode" ""]]
                 "csv")
              [AggregationConfig.Build ["region"]
                 [Aggregation.Build "price" "sum" ""]]
              (AggregationConfig.Build ["region"]
                 [Aggregation.Build "price" "avg" "";
                  Aggregation.Build "price" "mode" ""])
              [] 1
              (errorString
                 ("invalid aggregateMethod 'mode', "
                  ++ "aggregateMethod must be one of "
                  ++ "[sum avg min max count median]")))
    as (err & H1 & H2 & _);
    try discriminate; try reflexivity; try (repeat constructor).
  - exists [Aggregation.Build "price" "avg" ""],
      (Aggregation.Build "price" "mode" ""), [].
    repeat split; repeat constructor.
  - exists err. split; [exact H1 | exact H2].
Defined.

(** ** The revision of [Config] with a sheet ID *)

(** [Validate] of the revision in config.go passes exactly when the
    source is non-blank, a "googlesheets" source comes with a sheet ID,
    and every merge and aggregation directive passes its own [Validate];
    the filter string is not looked at. Whatever the outcome the name
    is filled in, and no directive is changed. *)
Theorem SheetConfig_Validate_passes_exactly (rand_Read : nat -> ascii)
    (c : SheetConfig.t) :
  (snd (SheetConfig.Validate rand_Read c) = None <->
   SheetConfig.Source c <> ""
   /\ (SheetConfig.Source c = "googlesheets" -> SheetConfig.SheetID c <> "")
   /\ Forall (valid MergeConfig.Validate) (SheetConfig.MergeColumns c)
   /\ Forall (valid AggregationConfig.Validate)
        (SheetConfig.Aggregations c))
  /\ SheetConfig.Name (fst (SheetConfig.Validate rand_Read c)) <> ""
  /\ SheetConfig.MergeColumns (fst (SheetConfig.Validate rand_Read c))
     = SheetConfig.MergeColumns c
  /\ SheetConfig.Aggregations (fst (SheetConfig.Validate rand_Read c))
     = SheetConfig.Aggregations c.
Proof.
  assert (Hname : forall n : string,
             (if String.eqb n ""
              then "UntitledConfig_" ++ utils.RandomString rand_Read 10
              else n) <> "").
  { intro n. destruct (String.eqb_spec n ""); [discriminate | assumption]. }
  rewrite <- (rangeValidate_None "mergeColumn" MergeConfig.Validate 0).
  rewrite <- (rangeValidate_None "aggregation" AggregationConfig.Validate 0).
  unfold SheetConfig.Validate.
  destruct c as [name desc creator source sheet flt ms ags out].
  cbn [SheetConfig.Name SheetConfig.Source SheetConfig.SheetID
       SheetConfig.MergeColumns SheetConfig.Aggregations
       SheetConfig.OutputFormat].
  specialize (Hname name).
  destruct (String.eqb name ""); cbn -[String.eqb rangeValidate] in *;
    (destruct (String.eqb_spec source "") as [Hs|Hs];
     [cbn; repeat split; try discriminate; try assumption; tauto|]);
    (destruct (String.eqb_spec sheet "") as [Hi|Hi];
     cbn -[String.eqb rangeValidate];
     [destruct (String.eqb_spec source "googlesheets") as [Hg|Hg];
      [cbn; repeat split; try discriminate; try assumption; tauto|]|]);
    destruct (String.eqb out ""); cbn -[String.eqb rangeValidate];
    destruct (rangeValidate "mergeColumn" _ 0 ms);
    cbn -[String.eqb rangeValidate];
    try destruct (rangeValidate "aggregation" _ 0 ags);
    cbn -[String.eqb rangeValidate];
    repeat split; try discriminate; try assumption; try tauto;
    try (intros (_ & _ & H & _); discriminate);
    try (intros (_ & _ & _ & H); discriminate).
Qed.

(** ** Random names *)

(** [RandomString(n)] is [2 n] characters long, each a digit of
    lower-case hexadecimal, and it determines the bytes it was made
    from: two entropy sources give the same string only if they agree
    on the first [n] bytes. *)
Theorem RandomString_hex (rand_Read rand_Read' : nat -> ascii) (n : nat) :
  String.length (utils.RandomString rand_Read n) = 2 * n
  /\ allChars isHexDigit (utils.RandomString rand_Read n) = true
  /\ (utils.RandomString rand_Read n = utils.RandomString rand_Read' n ->
      forall i, i < n -> rand_Read i = rand_Read' i).
Proof.
  split; [apply RandomString_length|].
  split; [apply EncodeToString_chars|].
  unfold utils.RandomString. intros H i Hi.
  apply EncodeToString_injective in H.
  assert (Hin : In i (seq 0 n)) by (apply in_seq; lia).
  revert Hin. generalize (seq 0 n) H. clear.
  induction l as [|k l IH]; intros H Hin; [destruct Hin|].
  cbn in H. injection H as H1 H2.
  destruct Hin as [Hk|Hk]; [now subst | auto].
Qed.

Lemma RandomString_hex_witness :
  zeroes 1 = (fun i => if Nat.ltb i 2 then Ascii.zero else "A"%char) 1.
Proof.
  apply (proj2 (proj2 (RandomString_hex zeroes
                         (fun i => if Nat.ltb i 2 then Ascii.zero
                                   else "A"%char) 2)));
    [reflexivity | lia].
Defined.

(** ** The run tracker, further *)

Section ProcessingFurther.

Import ProcessingMetadata Processing.

(** [HasData] says whether [GetRowCount] is positive, and
    [GetColumnCount] returns on every record that has data: it panics
    exactly on data that is not nil and has no row. *)
Theorem HasData_GetRowCount (p : Processing.t) :
  HasData p = Nat.ltb 0 (GetRowCount p)
  /\ (HasData p = true -> exists n, GetColumnCount p = Return n)
  /\ ((exists msg, GetColumnCount p = Panic msg) <-> Data p = Some []).
Proof.
  unfold HasData, GetRowCount, GetColumnCount, len.
  destruct (Data p) as [[|row rows]|]; cbn.
  - repeat split; eauto; discriminate.
  - repeat split; eauto; try discriminate. intros [msg H]. discriminate.
  - repeat split; eauto; try discriminate. intros [msg H]. discriminate.
Qed.

Lemma addFilters_log (fs : list string) (p : Processing.t) :
  AppliedFilters (Metadata (addFilters fs p))
  = (AppliedFilters (Metadata p) ++ fs)%list
  /\ PerformedMerges (Metadata (addFilters fs p))
     = PerformedMerges (Metadata p)
  /\ PerformedAggregations (Metadata (addFilters fs p))
     = PerformedAggregations (Metadata p)
  /\ Data (addFilters fs p) = Data p.
Proof.
  unfold addFilters. revert p.
  induction fs as [|f fs IH]; intro p; cbn [fold_left].
  - now rewrite app_nil_r.
  - destruct (IH (AddFilter f p)) as (H1 & H2 & H3 & H4).
    rewrite H1, H2, H3, H4. destruct p as [data md]; destruct md; cbn.
    now rewrite <- app_assoc.
Qed.

(** The applied-filter log holds the filter expressions in the order of
    the calls: a sequence of [AddFilter] calls appends its expressions,
    in order, after those already logged. Calls that write to different
    logs commute. *)
Theorem logs_keep_call_order (p : Processing.t) (fs : list string)
    (f a b s m c : string) :
  AppliedFilters (Metadata (addFilters fs p))
  = (AppliedFilters (Metadata p) ++ fs)%list
  /\ AddFilter f (AddMerge a b s p) = AddMerge a b s (AddFilter f p)
  /\ AddFilter f (AddAggregation m c p)
     = AddAggregation m c (AddFilter f p)
  /\ AddMerge a b s (AddAggregation m c p)
     = AddAggregation m c (AddMerge a b s p).
Proof.
  split; [apply addFilters_log|].
  destruct p as [data md]; destruct md; repeat split; reflexivity.
Qed.


(** What [CompleteProcess] writes and what it keeps. It stamps the end
    time and the elapsed time [EndTime.Sub(StartTime)], stores the final
    reading, and raises each peak to the final reading when that is
    higher, so no peak ever goes down. The data, the row counts, the
    three logs, the start time, the names and the step entries are as
    before. When start and end both carry a monotonic reading, as times
    from [time.Now] do, the elapsed time is the difference of those
    readings, whatever the wall clocks say. *)
Theorem CompleteProcess_record (now : time.Time)
    (memStats : runtime.MemStats) (p : Processing.t) :
  let m := Metadata p in
  let m' := Metadata (CompleteProcess now memStats p) in
  EndTime m' = now
  /\ ProcessingTime m' = time.Sub now (StartTime m)
  /\ MemoryStats.FinalAllocBytes (MemoryStats m')
     = runtime.Alloc memStats
  /\ MemoryStats.TotalAllocBytes (MemoryStats m')
     = runtime.TotalAlloc memStats
  /\ MemoryStats.NumGC (MemoryStats m') = runtime.NumGC memStats
  /\ MemoryStats.PeakAllocBytes (MemoryStats m')
     = Z.max (MemoryStats.PeakAllocBytes (MemoryStats m))
         (runtime.Alloc memStats)
  /\ MemoryStats.PeakSysBytes (MemoryStats m')
     = Z.max (MemoryStats.PeakSysBytes (MemoryStats m))
         (runtime.Sys memStats)
  /\ Data (CompleteProcess now memStats p) = Data p
  /\ SourceTotalRows m' = SourceTotalRows m
  /\ FilteredTotalRows m' = FilteredTotalRows m
  /\ AppliedFilters m' = AppliedFilters m
  /\ PerformedMerges m' = PerformedMerges m
  /\ PerformedAggregations m' = PerformedAggregations m
  /\ StartTime m' = StartTime m
  /\ ConfigName m' = ConfigName m
  /\ DataSource m' = DataSource m
  /\ StepPerformance m' = StepPerformance m
  /\ (forall a b : Z,
        time.mono (StartTime m) = Some a -> time.mono now = Some b ->
        ProcessingTime m' = time.clamp (b - a)
        /\ ((- 2 ^ 63 <= b - a < 2 ^ 63)%Z ->
            ProcessingTime m' = (b - a)%Z)).
Proof.
  destruct p as [data md].
  destruct md as [? ? ? ? ? ? start ? ? ? ms ?].
  destruct ms as [peak sys total final gc pct].
  unfold CompleteProcess, completeMemoryStats. cbn.
  assert (Hmono : forall a b : Z,
             time.mono start = Some a -> time.mono now = Some b ->
             time.Sub now start = time.clamp (b - a)
             /\ ((- 2 ^ 63 <= b - a < 2 ^ 63)%Z ->
                 time.Sub now start = (b - a)%Z)).
  { intros a b Ha Hb. unfold time.Sub. rewrite Ha, Hb.
    split; [reflexivity|]. intro H.
    unfold time.clamp, time.minDuration, time.maxDuration. lia. }
  destruct (0 <? peak)%Z; cbn;
    destruct (Z.ltb_spec peak (runtime.Alloc memStats)); cbn;
    destruct (Z.ltb_spec sys (runtime.Sys memStats)); cbn;
    repeat split; try reflexivity; try lia;
    try (intros; now apply Hmono).
Qed.

End ProcessingFurther.

Lemma HasData_GetRowCount_witness :
  exists n, Processing.GetColumnCount sampleRun = Return n.
Proof.
  apply (proj1 (proj2 (HasData_GetRowCount sampleRun))). reflexivity.
Defined.

Lemma CompleteProcess_record_witness :
  ProcessingMetadata.ProcessingTime
    (Processing.Metadata
       (Processing.CompleteProcess (time.Build_Time 4000 (Some 350%Z))
          (runtime.Build_MemStats 300 500 4096 1)
          (Processing.NewProcessing (time.Build_Time 5000 (Some 100%Z))
             (runtime.Build_MemStats 200 200 4096 0) None "run")))
  = 250%Z.
Proof.
  destruct (CompleteProcess_record (time.Build_Time 4000 (Some 350%Z))
              (runtime.Build_MemStats 300 500 4096 1)
              (Processing.NewProcessing (time.Build_Time 5000 (Some 100%Z))
                 (runtime.Build_MemStats 200 200 4096 0) None "run"))
    as (_ & _ & _ & _ & _ & _ & _ & _ & _ & _ & _ & _ & _ & _ & _ & _ & _
        & H).
  destruct (H 100%Z 350%Z eq_refl eq_refl) as (_ & H').
  rewrite H'; [reflexivity | lia].
Defined.

(** ** [FromJSON] after [ToJSON] *)

(** For a configuration whose strings are valid UTF-8, validated or not,
    [FromJSON] of what [ToJSON] wrote, into a new [Config], is [Validate]
    of that configuration: the same configuration and the same error. *)
Theorem FromJSON_ToJSON_is_Validate (rand_Read : nat -> ascii)
    (c : Config.t) :
  Config_validUTF8 c = true ->
  Config.FromJSON rand_Read (fst (Config.ToJSON c)) Config.zero
  = Config.Validate rand_Read c.
Proof.
  intro H. unfold Config.FromJSON, Config.ToJSON. cbn [fst].
  now rewrite (Config_unmarshal_marshal c H).
Qed.

Lemma FromJSON_ToJSON_is_Validate_witness :
  snd (Config.FromJSON zeroes (fst (Config.ToJSON twoMerges)) Config.zero)
  = Some (wrapError
            ("mergeColumn[1]: invalid strategy 'invalid', "
             ++ "strategy must be one of [concat sum first second]")
            (errorString
               ("invalid strategy 'invalid', "
                ++ "strategy must be one of [concat sum first second]"))).
Proof.
  rewrite (FromJSON_ToJSON_is_Validate zeroes twoMerges); reflexivity.
Defined.

(** [FromJSON] into a [Config] that is already filled keeps what the
    document leaves out: for a configuration with no filters, merge
    directives or aggregation directives, [ToJSON] omits the three keys,
    and [FromJSON] of that document into a receiver [r] validates the
    strings of the document together with the nested entries of [r]. *)
Theorem FromJSON_keeps_omitted_entries (rand_Read : nat -> ascii)
    (c r : Config.t) :
  Config_validUTF8 c = true ->
  Config.Filters c = [] -> Config.MergeColumns c = [] ->
  Config.Aggregations c = [] ->
  Config.FromJSON rand_Read (fst (Config.ToJSON c)) r
  = Config.Validate rand_Read
      (Config.Build (Config.Name c) (Config.Description c)
         (Config.Creator c) (Config.Type_ c) (Config.Source c)
         (Config.Filters r) (Config.MergeColumns r)
         (Config.Aggregations r) (Config.OutputFormat c)).
Proof.
  destruct c as [name desc creator type source fs ms ags out].
  destruct r as [rn rd rc rt rs rfs rms rags rout].
  unfold Config_validUTF8. cbn [Config.Name Config.Description
    Config.Creator Config.Type_ Config.Source Config.Filters
    Config.MergeColumns Config.Aggregations Config.OutputFormat].
  intros H -> -> ->. cbn [forallb] in H. rewrite !andb_true_r in H.
  repeat match type of H with
         | (_ && _)%bool = true =>
             let H' := fresh "Hv" in apply andb_prop in H as [H H']
         end.
  unfold Config.FromJSON, Config.ToJSON, Config.marshal, Config.unmarshal.
  cbn -[Config.Validate].
  now rewrite !ValidString_eq by assumption.
Qed.

Lemma FromJSON_keeps_omitted_entries_witness :
  Config.FromJSON zeroes
    (fst (Config.ToJSON
            (Config.Build "next" "" "" "csv" "other.csv" [] [] [] "json")))
    sampleValidated
  = (Config.Build "next" "" "" "csv" "other.csv"
       (Config.Filters sampleValidated)
       (Config.MergeColumns sampleValidated)
       (Config.Aggregations sampleValidated) "json", None).
Proof.
  rewrite (FromJSON_keeps_omitted_entries zeroes
             (Config.Build "next" "" "" "csv" "other.csv" [] [] [] "json")
             sampleValidated); reflexivity.
Defined.
